(** * AbstractLocator: the project scanner of vscode-project-manager

    A shallow embedding of [src/abstractLocator.ts] and the properties of
    its scan, cache and refresh logic.

    Conventions of the embedding.
    - The locator object is the record [Locator]; methods are functions in
      a state-and-exception monad over the locator and the [World] (the
      file system the process sees).
    - The abstract hooks of the class ([getKind], [decideProjectName],
      [isRepoDir], ...) are the class [LocatorHooks]; the helpers imported
      from [./PathUtils] are the class [PathUtils]; what the process reads
      from [process.env], [process.platform] and [vscode.env] is [Host].
    - Node's [path] module is modelled for POSIX ([path.sep] is "/").
    - A promise is modelled by the state it is in when the synchronous part
      of [locateProjects] returns, and by a completion step.  The walk of
      several base folders is interleaved in Node; the model runs the
      walkers one after the other, each depth first.  No property below
      depends on the order of the discoveries.
    - The text of a cache file is kept up to what [JSON.parse] makes of
      it.  Writing and removing a cache file succeed: a failing disk is
      outside the model. *)

From Stdlib Require Import ZArith Lia List Bool Ascii String.
From stdpp Require Import gmap strings.
Import ListNotations.

Local Open Scope string_scope.
Local Open Scope list_scope.
Local Open Scope Z_scope.

(** ** Node's [path] module (POSIX) and the string primitives in use *)

Module Path.

Definition sep : ascii := "/"%char.

(** [s.split(path.sep)]: the segments between separators; the empty
    string has the one segment [EmptyString]. *)
Fixpoint split (s : string) : list string :=
  match s with
  | EmptyString => [EmptyString]
  | String c s' =>
      if Ascii.eqb c sep then EmptyString :: split s'
      else match split s' with
           | seg :: rest => String c seg :: rest
           | [] => [String c EmptyString]
           end
  end.

Definition nonempty (s : string) : bool := negb (String.eqb s EmptyString).

(** [path.basename(p)]: the last segment, trailing separators dropped. *)
Definition basename (p : string) : string :=
  List.last (List.filter nonempty (split p)) EmptyString.

Definition startsWithSep (s : string) : bool :=
  match s with
  | String c _ => Ascii.eqb c sep
  | EmptyString => false
  end.

Fixpoint endsWithSep (s : string) : bool :=
  match s with
  | EmptyString => false
  | String c EmptyString => Ascii.eqb c sep
  | String _ s' => endsWithSep s'
  end.

(** The segment walk of [normalizeString]: [acc] is the result so far,
    last segment first. *)
Fixpoint normSegments (allowAboveRoot : bool) (segs acc : list string)
  : list string :=
  match segs with
  | [] => List.rev acc
  | seg :: rest =>
      if String.eqb seg EmptyString || String.eqb seg "." then
        normSegments allowAboveRoot rest acc
      else if String.eqb seg ".." then
        match acc with
        | top :: acc' =>
            if String.eqb top ".." then
              normSegments allowAboveRoot rest
                (if allowAboveRoot then ".." :: acc else acc)
            else normSegments allowAboveRoot rest acc'
        | [] =>
            normSegments allowAboveRoot rest
              (if allowAboveRoot then [".."] else [])
        end
      else normSegments allowAboveRoot rest (seg :: acc)
  end.

Fixpoint joinWith (d : string) (l : list string) : string :=
  match l with
  | [] => EmptyString
  | [x] => x
  | x :: rest => x +:+ d +:+ joinWith d rest
  end.

(** [path.normalize(p)] *)
Definition normalize (p : string) : string :=
  if String.eqb p EmptyString then "."
  else
    let isAbsolute := startsWithSep p in
    let trailing := endsWithSep p in
    let body := joinWith "/" (normSegments (negb isAbsolute) (split p) []) in
    if String.eqb body EmptyString then
      if isAbsolute then "/" else if trailing then "./" else "."
    else
      (if isAbsolute then "/" else EmptyString) +:+ body
        +:+ (if trailing then "/" else EmptyString).

(** [path.join(...parts)] *)
Definition join (parts : list string) : string :=
  match List.filter nonempty parts with
  | [] => "."
  | ps => normalize (joinWith "/" ps)
  end.

End Path.

(** [array.indexOf(x)] on an array of strings; [-1] when absent. *)
Fixpoint indexOfFrom (i : Z) (x : string) (l : list string) : Z :=
  match l with
  | [] => -1
  | y :: l' => if String.eqb y x then i else indexOfFrom (i + 1) x l'
  end.

Definition indexOf (x : string) (l : list string) : Z := indexOfFrom 0 x l.

(** [s.indexOf(needle)] on strings. *)
Definition strIndexOf (needle s : string) : Z :=
  match String.index 0 needle s with
  | Some i => Z.of_nat i
  | None => -1
  end.

(** ** Data model *)

Record DirInfo := { fullPath : string; name : string }.

Definition DirList := list DirInfo.

(** The [Project] record of [./storage] that [existsWithRootPath] builds. *)
Record Project := {
  rootPath : string;
  projName : string;
  group : string;
  paths : list string
}.

(** The fields of [AbstractLocator].  [baseFolders] is [None] when the
    field holds [undefined]: [refreshConfig] stores what the host returns
    for a key that has no default. *)
Record Locator := {
  dirList : DirList;
  maxDepth : Z;
  ignoredFolders : list string;
  useCachedProjects : bool;
  alreadyLocated : bool;
  baseFolders : option (list string)
}.

(** What [vscode.workspace.getConfiguration("projectManager")] holds for the
    four keys; [None] is a key without a value. *)
Record HostConfig := {
  cfg_baseFolders : option (list string);
  cfg_ignoredFolders : option (list string);
  cfg_maxDepthRecursion : option Z;
  cfg_cacheProjectsBetweenSessions : option bool
}.

(** [config.get(key, defaultValue)] *)
Definition config_get {A} (v : option A) (defaultValue : A) : A :=
  match v with
  | Some a => a
  | None => defaultValue
  end.

(** *** The file system *)

(** The text of a cache file, up to what [JSON.parse] makes of it: the
    serialisation of a [DirList], or text that does not parse. *)
Inductive FileText :=
| JsonText (d : DirList)
| Garbled.

Inductive Exn := SyntaxError | TypeError | ENOENT.

Definition JSON_stringify (d : DirList) : FileText := JsonText d.

Definition JSON_parse (t : FileText) : Exn + DirList :=
  match t with
  | JsonText d => inr d
  | Garbled => inl SyntaxError
  end.

#[local] Set Warnings "-register-all".

(** What [lstat] and [readdir] report of an entry.  A directory that cannot
    be read makes the walker emit ["error"]. *)
Inductive Node :=
| File
| Symlink
| Dir (readable : bool) (entries : list (string * Node)).

(** [files] are the regular files read and written as caches; [nodes]
    gives the tree found at a base folder; [walkers] records the roots
    handed to [walker(...)] so far (a ghost field: it is never read). *)
Record World := {
  files : gmap string FileText;
  nodes : string -> option Node;
  walkers : list string
}.

Definition existsSync (f : string) (w : World) : bool :=
  match files w !! f with
  | Some _ => true
  | None => false
  end.

(** Writing and unlinking succeed in this model: a failure of the file
    system (no permission, no parent directory), on which Node throws, is
    not represented. *)
Definition writeFileSync (f : string) (t : FileText) (w : World) : World :=
  {| files := <[f := t]> (files w); nodes := nodes w; walkers := walkers w |}.

Definition unlinkSync (f : string) (w : World) : World :=
  {| files := delete f (files w); nodes := nodes w; walkers := walkers w |}.

Definition startWalker (root : string) (w : World) : World :=
  {| files := files w; nodes := nodes w; walkers := walkers w ++ [root] |}.

(** *** Collaborators *)

(** The four abstract methods a concrete locator supplies. *)
Class LocatorHooks := {
  getKind : string;
  getDisplayName : string;
  decideProjectName : string -> string;
  isRepoDir : string -> bool
}.

(** [homeDir] and [PathUtils] of [./PathUtils]. *)
Class PathUtils := {
  homeDir : string;
  expandHomePath : string -> string;
  compactHomePath : string -> string
}.

(** [process.env.APPDATA], [process.env.HOME], [process.platform],
    [vscode.env.appName] and [String.prototype.toLocaleLowerCase]. *)
Class Host := {
  env_APPDATA : option string;
  env_HOME : option string;
  platform : string;
  appName : string;
  toLocaleLowerCase : string -> string
}.

(** ** A state-and-exception monad for the methods *)

Inductive Res (A : Type) :=
| Ok (a : A) (st : Locator) (w : World)
| Throw (e : Exn) (st : Locator) (w : World).

Arguments Ok {A} a st w.
Arguments Throw {A} e st w.

Definition M (A : Type) := Locator -> World -> Res A.

Definition ret {A} (a : A) : M A := fun st w => Ok a st w.

Definition bind {A B} (m : M A) (k : A -> M B) : M B :=
  fun st w =>
    match m st w with
    | Ok a st' w' => k a st' w'
    | Throw e st' w' => Throw e st' w'
    end.

Definition throw {A} (e : Exn) : M A := fun st w => Throw e st w.

Definition getSt : M Locator := fun st w => Ok st st w.
Definition putSt (st : Locator) : M unit := fun _ w => Ok tt st w.
Definition getW : M World := fun st w => Ok w st w.
Definition putW (w : World) : M unit := fun st _ => Ok tt st w.

Declare Scope locator_scope.
Delimit Scope locator_scope with loc.
Notation "'let*' x ':=' m 'in' k" := (bind m (fun x => k))
  (at level 10, x name, m at level 100, k at level 200) : locator_scope.
Notation "'run' m 'in' k" := (bind m (fun _ => k))
  (at level 10, m at level 100, k at level 200) : locator_scope.

Definition stateOf {A} (r : Res A) : Locator :=
  match r with Ok _ st _ => st | Throw _ st _ => st end.

Definition worldOf {A} (r : Res A) : World :=
  match r with Ok _ _ w => w | Throw _ _ w => w end.

(** [try { m } catch (e) { h e }] *)
Definition tryCatch {A} (m : M A) (h : Exn -> M A) : M A :=
  fun st w =>
    match m st w with
    | Ok a st' w' => Ok a st' w'
    | Throw e st' w' => h e st' w'
    end.

(** Field updates ([this.f = v]). *)
Definition set_dirList (d : DirList) (st : Locator) : Locator :=
  {| dirList := d; maxDepth := maxDepth st;
     ignoredFolders := ignoredFolders st;
     useCachedProjects := useCachedProjects st;
     alreadyLocated := alreadyLocated st; baseFolders := baseFolders st |}.

Definition set_maxDepth (n : Z) (st : Locator) : Locator :=
  {| dirList := dirList st; maxDepth := n;
     ignoredFolders := ignoredFolders st;
     useCachedProjects := useCachedProjects st;
     alreadyLocated := alreadyLocated st; baseFolders := baseFolders st |}.

Definition set_ignoredFolders (l : list string) (st : Locator) : Locator :=
  {| dirList := dirList st; maxDepth := maxDepth st;
     ignoredFolders := l;
     useCachedProjects := useCachedProjects st;
     alreadyLocated := alreadyLocated st; baseFolders := baseFolders st |}.

Definition set_useCachedProjects (b : bool) (st : Locator) : Locator :=
  {| dirList := dirList st; maxDepth := maxDepth st;
     ignoredFolders := ignoredFolders st;
     useCachedProjects := b;
     alreadyLocated := alreadyLocated st; baseFolders := baseFolders st |}.

Definition set_alreadyLocated (b : bool) (st : Locator) : Locator :=
  {| dirList := dirList st; maxDepth := maxDepth st;
     ignoredFolders := ignoredFolders st;
     useCachedProjects := useCachedProjects st;
     alreadyLocated := b; baseFolders := baseFolders st |}.

Definition set_baseFolders (l : option (list string)) (st : Locator)
  : Locator :=
  {| dirList := dirList st; maxDepth := maxDepth st;
     ignoredFolders := ignoredFolders st;
     useCachedProjects := useCachedProjects st;
     alreadyLocated := alreadyLocated st; baseFolders := l |}.

(** ** The walker

    [walker] is the npm package of that name, a dependency of the
    extension; the model follows its [go(entry)].  The entry is [lstat]ed.
    For a directory the callback set with [filterDir] is asked first: when
    it answers false the walker is done with the entry, without an event
    and without reading it (the package documents [filterDir] as deciding
    whether to include "the directory and it's children").  Otherwise the
    directory is read; it gets its ["dir"] event and every part read is
    walked in turn as [path.join(entry, part)]; a [readdir] or [lstat] that
    fails gives an ["error"] event.  The root is an entry like any other.
    Files and symbolic links give events the locator does not listen to. *)

Inductive WalkEvent :=
| EvDir (entry : string)
| EvError (entry : string).

Fixpoint go (filterDir : string -> bool) (entry : string) (n : Node)
  : list WalkEvent :=
  match n with
  | Dir readable entries =>
      if filterDir entry then
        if readable then
          EvDir entry ::
            flat_map (fun pc : string * Node =>
                        let (part, child) := pc in
                        go filterDir (Path.join [entry; part]) child)
                     entries
        else [EvError entry]
      else []
  | File | Symlink => []
  end.

Definition walker (filterDir : string -> bool) (root : string) (w : World)
  : list WalkEvent :=
  match nodes w root with
  | Some n => go filterDir root n
  | None => [EvError root]
  end.

(** The state of the promise [locateProjects] returns, at the moment the
    call returns: settled, or waiting for the walkers started on [roots]. *)
Inductive Promise :=
| Resolved (l : DirList)
| Rejected (e : Exn)
| Pending (roots : list string).

(** What [existsWithRootPath] returns: a project, [null], or [undefined]
    when the loop ends without a match. *)
Inductive Lookup :=
| Found (p : Project)
| Null
| Undefined.

(** ** The methods of [AbstractLocator] *)

Section AbstractLocator.

Context {hooks : LocatorHooks} {putils : PathUtils} {host : Host}.

Local Open Scope locator_scope.

Definition CACHE_FILE : string := "projects_cache_".

(** The field initialisers of the constructor, before its
    [refreshConfig]. *)
Definition newLocator : Locator :=
  {| dirList := []; maxDepth := -1; ignoredFolders := [];
     useCachedProjects := true; alreadyLocated := false;
     baseFolders := Some [] |}.

Definition getPathDepth (s : string) : Z :=
  Z.of_nat (length (Path.split s)).

Definition isMaxDeptReached (st : Locator) (currentDepth initialDepth : Z)
  : bool :=
  (0 <? maxDepth st) && (maxDepth st <? currentDepth - initialDepth).

Definition isFolderIgnored (st : Locator) (folder : string) : bool :=
  negb (indexOf folder (ignoredFolders st) =? -1).

Definition isAlreadyLocated (st : Locator) : bool :=
  useCachedProjects st && alreadyLocated st.

Definition getChannelPath : string :=
  if 0 <? strIndexOf "Insiders" appName then "Code - Insiders" else "Code".

(** [a || b] on strings that may be undefined: the empty string is falsy
    too. *)
Definition orElse (a : option string) (b : string) : string :=
  match a with
  | Some s => if String.eqb s EmptyString then b else s
  | None => b
  end.

(** [undefined + s] is ["undefined" + s]. *)
Definition toStr (a : option string) : string :=
  match a with
  | Some s => s
  | None => "undefined"
  end.

Definition getCacheFile (w : World) : string :=
  let appdata :=
    orElse env_APPDATA
      (if String.eqb platform "darwin"
       then toStr env_HOME +:+ "/Library/Application Support"
       else "/var/local") in
  let channelPath := getChannelPath in
  let cacheFile :=
    Path.join [appdata; channelPath; "User";
               CACHE_FILE +:+ getKind +:+ ".json"] in
  if String.eqb platform "linux" && negb (existsSync cacheFile w) then
    Path.join [homeDir; ".config/"; channelPath; "User";
               CACHE_FILE +:+ getKind +:+ ".json"]
  else cacheFile.

Definition setAlreadyLocated (al : bool) : M unit :=
  let* st := getSt in
  if useCachedProjects st then
    run putSt (set_alreadyLocated al st) in
    let* st := getSt in
    if alreadyLocated st then
      let* w := getW in
      let cacheFile := getCacheFile w in
      putW (writeFileSync cacheFile (JSON_stringify (dirList st)) w)
    else ret tt
  else ret tt.

Definition clearDirList : M unit :=
  let* st := getSt in putSt (set_dirList [] st).

(** [JSON.parse(fs.readFileSync(f, "utf8"))] *)
Definition readJson (f : string) : M DirList :=
  let* w := getW in
  match files w !! f with
  | Some t =>
      match JSON_parse t with
      | inr d => ret d
      | inl e => throw e
      end
  | None => throw ENOENT
  end.

Definition initializeCfg (kind : string) : M unit :=
  let* st := getSt in
  if negb (useCachedProjects st) then clearDirList
  else
    let* w := getW in
    let cacheFile := getCacheFile w in
    if existsSync cacheFile w then
      let* d := readJson cacheFile in
      let* st := getSt in
      run putSt (set_dirList d st) in
      setAlreadyLocated true
    else ret tt.

Definition addToList (projectPath : string) (projectName : option string)
  : M unit :=
  let* st := getSt in
  putSt (set_dirList
           (dirList st ++
              [{| fullPath := projectPath;
                  name := match projectName with
                          | None => Path.basename projectPath
                          | Some n => n
                          end |}]) st).

Definition processDirectory (absPath : string) : M unit :=
  if isRepoDir absPath then
    addToList absPath (Some (decideProjectName absPath))
  else ret tt.

(** [console.log] only. *)
Definition handleError : M unit := ret tt.

(** The callback given to [filterDir] for a walker whose root has
    [depth] segments. *)
Definition filterDir (st : Locator) (depth : Z) (dir : string) : bool :=
  negb (isFolderIgnored st (Path.basename dir)
        || isMaxDeptReached st (getPathDepth dir) depth).

Definition dirExistsSync (p : string) (w : World) : bool :=
  match nodes w p with
  | Some _ => true
  | None => false
  end.

(** The [forEach] over the base folders: the walkers it starts. *)
Fixpoint startWalkers (projectsDirList : list string) : M (list string) :=
  match projectsDirList with
  | [] => ret []
  | projectBasePath :: rest =>
      let expandedBasePath := expandHomePath projectBasePath in
      let* w := getW in
      if negb (dirExistsSync expandedBasePath w) then startWalkers rest
      else
        run putW (startWalker expandedBasePath w) in
        let* roots := startWalkers rest in
        ret (expandedBasePath :: roots)
  end.

(** [new Promise(executor)]: an executor that throws rejects the
    promise. *)
Definition newPromise (executor : M Promise) : M Promise :=
  tryCatch executor (fun e => ret (Rejected e)).

(** [locateProjects()] up to the point where it returns.  Reading
    [projectsDirList.length] throws a [TypeError] when [baseFolders] is
    [undefined]. *)
Definition locateProjects_start : M Promise :=
  let* st := getSt in
  let projectsDirList := baseFolders st in
  newPromise (
    match projectsDirList with
    | None => throw TypeError
    | Some dirs =>
        if Z.of_nat (length dirs) =? 0 then ret (Resolved [])
        else
          run initializeCfg getKind in
          let* st := getSt in
          if isAlreadyLocated st then ret (Resolved (dirList st))
          else
            run clearDirList in
            let* roots := startWalkers dirs in
            ret (Pending roots)
    end).

Definition dispatch (ev : WalkEvent) : M unit :=
  match ev with
  | EvDir entry => processDirectory entry
  | EvError _ => handleError
  end.

Fixpoint emitAll (evs : list WalkEvent) : M unit :=
  match evs with
  | [] => ret tt
  | ev :: rest => run dispatch ev in emitAll rest
  end.

(** The events of the walker started on [root]. *)
Definition walkerEvents (st : Locator) (w : World) (root : string)
  : list WalkEvent :=
  walker (filterDir st (getPathDepth root)) root w.

(** The events of a scan.  The walkers of the source run side by side and
    their events interleave as the file system answers; the model takes
    the schedule in which the walkers report one after the other, in the
    order of the base folders.  What a property says of the order of the
    list therefore holds of this schedule only. *)
Definition scanEvents (st : Locator) (w : World) (roots : list string)
  : list WalkEvent :=
  flat_map (walkerEvents st w) roots.

Definition runWalkers (roots : list string) : M unit :=
  let* st := getSt in
  let* w := getW in
  emitAll (scanEvents st w roots).

(** The [then] of [Promise.all(promises)]. *)
Definition locateProjects_settle : M Promise :=
  run setAlreadyLocated true in
  let* st := getSt in
  ret (Resolved (dirList st)).

(** [locateProjects()] awaited. *)
Definition locateProjects : M Promise :=
  let* p := locateProjects_start in
  match p with
  | Pending roots =>
      run runWalkers roots in
      locateProjects_settle
  | _ => ret p
  end.

(** [a[i] !== b[i]] negated; an index out of range reads [undefined].
    The elements are strings, so the [instanceof Array] branch of the
    loop is never taken. *)
Definition sameElement (x y : option string) : bool :=
  match x, y with
  | Some a, Some b => String.eqb a b
  | None, None => true
  | _, _ => false
  end.

(** The [for] loop of [arraysAreEquals], at index [i] with [n] rounds to
    go. *)
Fixpoint arraysLoop (array1 array2 : list string) (i n : nat) : bool :=
  match n with
  | O => true
  | S n' =>
      if negb (sameElement (array1 !! i) (array2 !! i)) then false
      else arraysLoop array1 array2 (S i) n'
  end.

Definition arraysAreEquals (array1 array2 : option (list string)) : bool :=
  match array1, array2 with
  | Some a1, Some a2 =>
      if negb (Nat.eqb (length a1) (length a2)) then false
      else arraysLoop a1 a2 0 (length a1)
  | _, _ => false
  end.

Definition refreshConfig (config : HostConfig) : M bool :=
  let refreshedSomething := false in

  let currentValue := cfg_baseFolders config in
  let* st := getSt in
  let* refreshedSomething :=
    if negb (arraysAreEquals (baseFolders st) currentValue) then
      run putSt (set_baseFolders currentValue st) in ret true
    else ret refreshedSomething in

  let currentValue := config_get (cfg_ignoredFolders config) [] in
  let* st := getSt in
  let* refreshedSomething :=
    if negb (arraysAreEquals (baseFolders st) (Some currentValue)) then
      run putSt (set_ignoredFolders currentValue st) in ret true
    else ret refreshedSomething in

  let currentValue := config_get (cfg_maxDepthRecursion config) (-1) in
  let* st := getSt in
  let* refreshedSomething :=
    if negb (maxDepth st =? currentValue) then
      run putSt (set_maxDepth currentValue st) in ret true
    else ret refreshedSomething in

  let currentValue :=
    config_get (cfg_cacheProjectsBetweenSessions config) true in
  let* st := getSt in
  let* refreshedSomething :=
    if negb (Bool.eqb (useCachedProjects st) currentValue) then
      run putSt (set_useCachedProjects currentValue st) in ret true
    else ret refreshedSomething in

  ret refreshedSomething.

(** [new AbstractLocator()] *)
Definition constructor (config : HostConfig) (w : World) : Res bool :=
  refreshConfig config newLocator w.

(** [refreshProjects()]; the promise of its [locateProjects()] is
    dropped. *)
Definition refreshProjects (config : HostConfig) : M bool :=
  let* configChanged := refreshConfig config in
  run clearDirList in
  let* w := getW in
  let cacheFile := getCacheFile w in
  run (if existsSync cacheFile w then putW (unlinkSync cacheFile w)
       else ret tt) in
  run setAlreadyLocated false in
  let* _promise := locateProjects_start in
  ret configChanged.

(** The test of the loop of [existsWithRootPath]. *)
Definition matchesRoot (rootPathArg rootPathUsingHome : string)
  (element : DirInfo) : bool :=
  String.eqb (toLocaleLowerCase (fullPath element))
             (toLocaleLowerCase rootPathArg)
  || String.eqb (toLocaleLowerCase (fullPath element)) rootPathUsingHome.

Definition toProject (element : DirInfo) : Project :=
  {| rootPath := fullPath element; projName := name element;
     group := EmptyString; paths := [] |}.

Fixpoint findElement (rootPathArg rootPathUsingHome : string) (l : DirList)
  : Lookup :=
  match l with
  | [] => Undefined
  | element :: rest =>
      if matchesRoot rootPathArg rootPathUsingHome element
      then Found (toProject element)
      else findElement rootPathArg rootPathUsingHome rest
  end.

Definition existsWithRootPath (rootPathArg : string) : M Lookup :=
  run initializeCfg getKind in
  let* st := getSt in
  if negb (isAlreadyLocated st) then ret Null
  else
    let rootPathUsingHome :=
      toLocaleLowerCase (compactHomePath rootPathArg) in
    ret (findElement rootPathArg rootPathUsingHome (dirList st)).

End AbstractLocator.

(** ** Vocabulary of the properties *)

Definition eventEntry (ev : WalkEvent) : string :=
  match ev with
  | EvDir entry => entry
  | EvError entry => entry
  end.

(** The directories a run of events hands to [processDirectory], hence to
    [isRepoDir]. *)
Definition dirsOf (evs : list WalkEvent) : list string :=
  flat_map (fun ev => match ev with
                      | EvDir entry => [entry]
                      | EvError _ => []
                      end) evs.

(** [Visit f entry n trail d]: the walker that arrives at the entry [entry],
    which is [n] on disk, with the filter [f], emits ["dir"] for [d] after
    having read, in this order, the directories of [trail] above it. *)
Inductive Visit (f : string -> bool)
  : string -> Node -> list string -> string -> Prop :=
| Visit_here entry entries :
    f entry = true ->
    Visit f entry (Dir true entries) [] entry
| Visit_below entry entries part child trail d :
    f entry = true ->
    In (part, child) entries ->
    Visit f (Path.join [entry; part]) child trail d ->
    Visit f entry (Dir true entries) (entry :: trail) d.

(** The world once walkers have been started on [roots]. *)
Definition withWalkers (roots : list string) (w : World) : World :=
  {| files := files w; nodes := nodes w; walkers := walkers w ++ roots |}.

(** How often [d] is the [fullPath] of an entry, and how often a walker
    reported it. *)
Definition occurrences (d : string) (l : DirList) : nat :=
  length (List.filter (fun e => String.eqb (fullPath e) d) l).

Definition sightings (d : string) (evs : list WalkEvent) : nat :=
  length (List.filter (fun ev => match ev with
                                 | EvDir x => String.eqb x d
                                 | EvError _ => false
                                 end) evs).

(** The locator as [refreshConfig] leaves it. *)
Definition refreshed (config : HostConfig) (st : Locator) : Locator :=
  let newBase := cfg_baseFolders config in
  let newIgnored := config_get (cfg_ignoredFolders config) [] in
  {| dirList := dirList st;
     maxDepth := config_get (cfg_maxDepthRecursion config) (-1);
     ignoredFolders :=
       if negb (arraysAreEquals newBase (Some newIgnored)) then newIgnored
       else ignoredFolders st;
     useCachedProjects :=
       config_get (cfg_cacheProjectsBetweenSessions config) true;
     alreadyLocated := alreadyLocated st;
     baseFolders := newBase |}.

Section Vocabulary.

Context {hooks : LocatorHooks} {putils : PathUtils} {host : Host}.

(** The entry [processDirectory] appends for a directory it accepts. *)
Definition toDirInfo (absPath : string) : DirInfo :=
  {| fullPath := absPath; name := decideProjectName absPath |}.

(** What a run of events appends to [dirList]. *)
Definition discoveries (evs : list WalkEvent) : DirList :=
  map toDirInfo (List.filter isRepoDir (dirsOf evs)).

(** The base folders for which [locateProjects] starts a walker. *)
Definition existingRoots (bases : list string) (w : World) : list string :=
  List.filter (fun p => dirExistsSync p w) (map expandHomePath bases).

(** The two places [getCacheFile] chooses between. *)
Definition primaryCacheFile : string :=
  Path.join [orElse env_APPDATA
               (if String.eqb platform "darwin"
                then toStr env_HOME +:+ "/Library/Application Support"
                else "/var/local");
             getChannelPath; "User"; CACHE_FILE +:+ getKind +:+ ".json"].

Definition fallbackCacheFile : string :=
  Path.join [homeDir; ".config/"; getChannelPath; "User";
             CACHE_FILE +:+ getKind +:+ ".json"].

(** On Linux a cache file sits at both places. *)
Definition twoCaches (w : World) : bool :=
  String.eqb platform "linux"
  && existsSync primaryCacheFile w
  && existsSync fallbackCacheFile w
  && negb (String.eqb primaryCacheFile fallbackCacheFile).

(** The cache on disk, if there is one, is the serialisation of the list
    in memory. *)
Definition cacheCoherent (st : Locator) (w : World) : Prop :=
  match files w !! getCacheFile w with
  | Some t => t = JSON_stringify (dirList st)
  | None => True
  end.

(** [element.fullPath] is [p], or the home-compacted form of [p], up to
    case. *)
Definition samePath (p : string) (element : DirInfo) : Prop :=
  toLocaleLowerCase (fullPath element) = toLocaleLowerCase p
  \/ toLocaleLowerCase (fullPath element)
     = toLocaleLowerCase (compactHomePath p).

End Vocabulary.

(** ** Fixtures: a concrete locator, host and file system

    A locator for git repositories on a Linux host, used to evaluate the
    methods on concrete inputs. *)

Module Fixture.

Definition asciiLower (c : ascii) : ascii :=
  let n := nat_of_ascii c in
  if (Nat.leb 65 n && Nat.leb n 90)%bool then ascii_of_nat (n + 32) else c.

Fixpoint lower (s : string) : string :=
  match s with
  | EmptyString => EmptyString
  | String c s' => String (asciiLower c) (lower s')
  end.

(** A directory holding a [.git] directory. *)
Definition repo (more : list (string * Node)) : Node :=
  Dir true ((".git", Dir true []) :: more).

(** [/home/u/work/{a/.git, a/node_modules/b/.git, a/x/y/.git}] *)
Definition workTree : Node :=
  Dir true
    [("a", repo [("node_modules", Dir true [("b", repo [])]);
                 ("x", Dir true [("y", repo [])])])].

(** [/srv/{proj/.git, node_modules/.git}] *)
Definition srvTree : Node :=
  Dir true [("proj", repo []); ("node_modules", repo [])].

(** [/opt/proj/.git] *)
Definition optTree : Node := Dir true [("proj", repo [])].

Definition disk (p : string) : option Node :=
  if String.eqb p "/home/u/work" then Some workTree
  else if String.eqb p "/home/u/work/a" then
    Some (repo [("node_modules", Dir true [("b", repo [])]);
                ("x", Dir true [("y", repo [])])])
  else if String.eqb p "/srv" then Some srvTree
  else if String.eqb p "/opt" then Some optTree
  else None.

(** The directories of [disk] that hold a [.git]. *)
Definition repos : list string :=
  ["/home/u/work/a"; "/home/u/work/a/node_modules/b";
   "/home/u/work/a/x/y"; "/srv/proj"; "/srv/node_modules"; "/opt/proj"].

#[export] Instance gitHooks : LocatorHooks :=
  {| getKind := "git";
     getDisplayName := "Git";
     decideProjectName := Path.basename;
     isRepoDir := fun p => existsb (String.eqb p) repos |}.

(** The text of [s] from position [n] on. *)
Definition dropPrefix (n : nat) (s : string) : string :=
  String.substring n (String.length s - n) s.

(** A leading [~] stands for the home directory; a leading home directory
    is compacted to [$home]. *)
#[export] Instance pathUtils : PathUtils :=
  {| homeDir := "/home/u";
     expandHomePath := fun p =>
       if String.prefix "~" p then "/home/u" +:+ dropPrefix 1 p else p;
     compactHomePath := fun p =>
       if String.prefix "/home/u" p then "$home" +:+ dropPrefix 7 p else p |}.

#[export] Instance linuxHost : Host :=
  {| env_APPDATA := None;
     env_HOME := Some "/home/u";
     platform := "linux";
     appName := "Visual Studio Code";
     toLocaleLowerCase := lower |}.

Definition emptyDisk : World :=
  {| files := ∅; nodes := disk; walkers := [] |}.

Definition locator (bases ignored : list string) (depth : Z)
  (cached located : bool) (l : DirList) : Locator :=
  {| dirList := l; maxDepth := depth; ignoredFolders := ignored;
     useCachedProjects := cached; alreadyLocated := located;
     baseFolders := Some bases |}.

Definition hostConfig (bases ignored : list string) (depth : Z)
  (cached : bool) : HostConfig :=
  {| cfg_baseFolders := Some bases;
     cfg_ignoredFolders := Some ignored;
     cfg_maxDepthRecursion := Some depth;
     cfg_cacheProjectsBetweenSessions := Some cached |}.

Definition projA : DirInfo := {| fullPath := "/home/u/work/a"; name := "a" |}.

(** A disk with a cache file at the fallback place only. *)
Definition cachedDisk (t : FileText) : World :=
  {| files := {[ "/home/u/.config/Code/User/projects_cache_git.json" := t ]};
     nodes := disk; walkers := [] |}.

Definition staleProj : DirInfo := {| fullPath := "/gone"; name := "gone" |}.

(** A disk with a cache file at both places [getCacheFile] looks in. *)
Definition twoCacheDisk : World :=
  {| files :=
       <[ "/var/local/Code/User/projects_cache_git.json" := JsonText [] ]>
         {[ "/home/u/.config/Code/User/projects_cache_git.json"
            := JsonText [staleProj] ]};
     nodes := disk; walkers := [] |}.

End Fixture.

(** * Properties *)

(** ** Running the monad *)

Ltac munfold :=
  unfold bind, ret, throw, getSt, putSt, getW, putW, tryCatch in *.

(** ** Induction on the tree under an entry *)

Lemma Node_nested_ind (P : Node -> Prop) :
  P File -> P Symlink ->
  (forall readable entries,
      Forall (fun pc : string * Node => P (snd pc)) entries ->
      P (Dir readable entries)) ->
  forall n, P n.
Proof.
  intros HF HS HD. fix IH 1.
  intros [| | readable entries]; [exact HF | exact HS |].
  apply HD. induction entries as [|[part child] entries IHentries].
  - constructor.
  - constructor; [exact (IH child) | exact IHentries].
Qed.

(** ** The walker and its filter *)

(** A walker emits events only for entries its filter accepts. *)
Lemma go_events_accepted n :
  forall f entry ev, In ev (go f entry n) -> f (eventEntry ev) = true.
Proof.
  induction n as [| | readable entries IH] using Node_nested_ind;
    intros f entry ev Hin; simpl in Hin; try contradiction.
  destruct (f entry) eqn:Hf; [|contradiction].
  destruct readable.
  - destruct Hin as [<- | Hin]; [exact Hf|].
    apply in_flat_map in Hin as [[part child] [Hpc Hin]].
    rewrite List.Forall_forall in IH. exact (IH _ Hpc _ _ _ Hin).
  - destruct Hin as [<- | []]. exact Hf.
Qed.

(** A rejected entry is the end of the walk below it. *)
Lemma go_rejected f entry n : f entry = false -> go f entry n = [].
Proof. intros Hf. destruct n; simpl; [reflexivity..|]. now rewrite Hf. Qed.

(** Every ["dir"] event comes with the chain of directories read on the
    way to it. *)
Lemma go_dir_visit n :
  forall f entry d,
    In (EvDir d) (go f entry n) -> exists trail, Visit f entry n trail d.
Proof.
  induction n as [| | readable entries IH] using Node_nested_ind;
    intros f entry d Hin; simpl in Hin; try contradiction.
  destruct (f entry) eqn:Hf; [|contradiction].
  destruct readable.
  - destruct Hin as [Heq | Hin].
    + injection Heq as <-. exists []. now constructor.
    + apply in_flat_map in Hin as [[part child] [Hpc Hin]].
      rewrite List.Forall_forall in IH.
      destruct (IH _ Hpc _ _ _ Hin) as [trail Hv].
      exists (entry :: trail). econstructor; eassumption.
  - destruct Hin as [Heq | []]. discriminate.
Qed.

Lemma visit_go_dir f entry n trail d :
  Visit f entry n trail d -> In (EvDir d) (go f entry n).
Proof.
  induction 1 as [entry entries Hf
                 | entry entries part child trail d Hf Hpc _ IH];
    simpl; rewrite Hf.
  - now left.
  - right. apply in_flat_map. exists (part, child). split; assumption.
Qed.

(** The filter accepted the directory and every directory above it. *)
Lemma visit_accepted f entry n trail d :
  Visit f entry n trail d -> Forall (fun a => f a = true) (trail ++ [d]).
Proof.
  induction 1; simpl.
  - constructor; [assumption | constructor].
  - constructor; assumption.
Qed.

Lemma dirsOf_In evs d : In d (dirsOf evs) <-> In (EvDir d) evs.
Proof.
  unfold dirsOf. rewrite in_flat_map. split.
  - intros [[e|e] [Hin Hd]]; simpl in Hd; [|contradiction].
    destruct Hd as [<- | []]. exact Hin.
  - intros Hin. exists (EvDir d). split; [exact Hin | now left].
Qed.

Lemma dirsOf_app evs1 evs2 : dirsOf (evs1 ++ evs2) = dirsOf evs1 ++ dirsOf evs2.
Proof. unfold dirsOf. apply flat_map_app. Qed.

(** ** The methods, step by step *)

Lemma withWalkers_nil w : withWalkers [] w = w.
Proof. destruct w. unfold withWalkers. simpl. now rewrite app_nil_r. Qed.

Lemma writeFileSync_same f t w :
  files w !! f = Some t -> writeFileSync f t w = w.
Proof.
  intros H. destruct w as [fs ns ws]. unfold writeFileSync. simpl in *.
  f_equal. now apply insert_id.
Qed.

Lemma set_dirList_same st : set_dirList (dirList st) st = st.
Proof. now destruct st. Qed.

Section Properties.

Context {hooks : LocatorHooks} {putils : PathUtils} {host : Host}.

Lemma getCacheFile_cases w :
  getCacheFile w =
    if String.eqb platform "linux" && negb (existsSync primaryCacheFile w)
    then fallbackCacheFile else primaryCacheFile.
Proof. reflexivity. Qed.

Lemma existsSync_write f g t w :
  existsSync f (writeFileSync g t w) = existsSync f w || String.eqb g f.
Proof.
  unfold existsSync, writeFileSync. simpl.
  destruct (String.eqb_spec g f) as [->|Hne].
  - rewrite lookup_insert_eq. now rewrite orb_true_r.
  - rewrite lookup_insert_ne by exact Hne. now rewrite orb_false_r.
Qed.

(** Writing the cache does not move it. *)
Lemma getCacheFile_write t w :
  getCacheFile (writeFileSync (getCacheFile w) t w) = getCacheFile w.
Proof.
  rewrite !getCacheFile_cases.
  destruct (String.eqb platform "linux") eqn:Hlinux; simpl; [|reflexivity].
  destruct (existsSync primaryCacheFile w) eqn:Hp; simpl.
  - rewrite existsSync_write, Hp. reflexivity.
  - rewrite existsSync_write, Hp. simpl.
    destruct (String.eqb_spec fallbackCacheFile primaryCacheFile) as [Heq|];
      simpl; [now rewrite Heq | reflexivity].
Qed.

(** *** [setAlreadyLocated] *)

Lemma setAlreadyLocated_disabled al st w :
  useCachedProjects st = false -> setAlreadyLocated al st w = Ok tt st w.
Proof. intros H. unfold setAlreadyLocated. munfold. now rewrite H. Qed.

Lemma setAlreadyLocated_false st w :
  useCachedProjects st = true ->
  setAlreadyLocated false st w = Ok tt (set_alreadyLocated false st) w.
Proof. intros H. unfold setAlreadyLocated. munfold. now rewrite H. Qed.

Lemma setAlreadyLocated_true st w :
  useCachedProjects st = true ->
  setAlreadyLocated true st w =
    Ok tt (set_alreadyLocated true st)
       (writeFileSync (getCacheFile w) (JSON_stringify (dirList st)) w).
Proof. intros H. unfold setAlreadyLocated. munfold. now rewrite H. Qed.

(** *** [initializeCfg] *)

Lemma initializeCfg_disabled kind st w :
  useCachedProjects st = false ->
  initializeCfg kind st w = Ok tt (set_dirList [] st) w.
Proof.
  intros H. unfold initializeCfg, clearDirList. munfold. now rewrite H.
Qed.

Lemma initializeCfg_no_cache kind st w :
  useCachedProjects st = true ->
  files w !! getCacheFile w = None ->
  initializeCfg kind st w = Ok tt st w.
Proof.
  intros H Hf. unfold initializeCfg. munfold. rewrite H. simpl.
  unfold existsSync. now rewrite Hf.
Qed.

Lemma initializeCfg_cache kind st w d :
  useCachedProjects st = true ->
  files w !! getCacheFile w = Some (JsonText d) ->
  initializeCfg kind st w =
    Ok tt (set_alreadyLocated true (set_dirList d st))
       (writeFileSync (getCacheFile w) (JsonText d) w).
Proof.
  intros H Hf. unfold initializeCfg, readJson. munfold. rewrite H. simpl.
  unfold existsSync. rewrite Hf. simpl. rewrite Hf. simpl.
  rewrite setAlreadyLocated_true by exact H. reflexivity.
Qed.

Lemma initializeCfg_garbled kind st w :
  useCachedProjects st = true ->
  files w !! getCacheFile w = Some Garbled ->
  initializeCfg kind st w = Throw SyntaxError st w.
Proof.
  intros H Hf. unfold initializeCfg, readJson. munfold. rewrite H. simpl.
  unfold existsSync. rewrite Hf. simpl. now rewrite Hf.
Qed.

(** *** The scan *)

Lemma addToList_run projectPath projectName st w :
  addToList projectPath projectName st w =
    Ok tt (set_dirList
             (dirList st ++
                [{| fullPath := projectPath;
                    name := match projectName with
                            | None => Path.basename projectPath
                            | Some n => n
                            end |}]) st) w.
Proof. reflexivity. Qed.

Lemma discoveries_cons ev evs :
  discoveries (ev :: evs) =
    match ev with
    | EvDir d => if isRepoDir d then toDirInfo d :: discoveries evs
                 else discoveries evs
    | EvError _ => discoveries evs
    end.
Proof.
  unfold discoveries. destruct ev as [d|d]; simpl; [|reflexivity].
  now destruct (isRepoDir d).
Qed.

Lemma discoveries_app evs1 evs2 :
  discoveries (evs1 ++ evs2) = discoveries evs1 ++ discoveries evs2.
Proof.
  unfold discoveries. now rewrite dirsOf_app, List.filter_app, map_app.
Qed.

Lemma discoveries_In e evs :
  In e (discoveries evs) <->
  exists d, e = toDirInfo d /\ isRepoDir d = true /\ In (EvDir d) evs.
Proof.
  unfold discoveries. rewrite in_map_iff. split.
  - intros [d [<- Hd]]. apply filter_In in Hd as [Hd Hr].
    exists d. rewrite <- dirsOf_In. auto.
  - intros [d [-> [Hr Hd]]]. exists d. split; [reflexivity|].
    apply filter_In. rewrite dirsOf_In. auto.
Qed.

(** Handling a run of events appends its discoveries, whatever the list
    holds already. *)
Lemma emitAll_run evs :
  forall st w,
    emitAll evs st w =
      Ok tt (set_dirList (dirList st ++ discoveries evs) st) w.
Proof.
  induction evs as [|ev evs IH]; intros st w.
  - simpl. unfold ret, discoveries. simpl.
    now rewrite app_nil_r, set_dirList_same.
  - simpl. unfold bind. rewrite discoveries_cons.
    destruct ev as [d|d]; simpl.
    + unfold processDirectory. destruct (isRepoDir d).
      * rewrite addToList_run. rewrite IH. simpl.
        now rewrite <- app_assoc.
      * unfold ret. apply IH.
    + unfold handleError, ret. apply IH.
Qed.

Lemma startWalkers_run bases :
  forall st w,
    startWalkers bases st w =
      Ok (existingRoots bases w) st (withWalkers (existingRoots bases w) w).
Proof.
  induction bases as [|b bases IH]; intros st w.
  - simpl. unfold ret. now rewrite withWalkers_nil.
  - simpl. munfold. unfold existingRoots. simpl.
    destruct (dirExistsSync (expandHomePath b) w) eqn:Hex; simpl.
    + rewrite IH. unfold withWalkers, existingRoots, startWalker. simpl.
      now rewrite <- app_assoc.
    + apply IH.
Qed.

Lemma initializeCfg_cases kind st w :
  initializeCfg kind st w =
    if useCachedProjects st then
      match files w !! getCacheFile w with
      | Some (JsonText d) =>
          Ok tt (set_alreadyLocated true (set_dirList d st))
             (writeFileSync (getCacheFile w) (JsonText d) w)
      | Some Garbled => Throw SyntaxError st w
      | None => Ok tt st w
      end
    else Ok tt (set_dirList [] st) w.
Proof.
  destruct (useCachedProjects st) eqn:Hc.
  - destruct (files w !! getCacheFile w) as [[d|]|] eqn:Hf.
    + now apply initializeCfg_cache.
    + now apply initializeCfg_garbled.
    + now apply initializeCfg_no_cache.
  - now apply initializeCfg_disabled.
Qed.

(** The synchronous part of [locateProjects], case by case. *)
Lemma locateProjects_start_cases st w :
  locateProjects_start st w =
    match baseFolders st with
    | None => Ok (Rejected TypeError) st w
    | Some bases =>
        if Z.of_nat (length bases) =? 0 then Ok (Resolved []) st w
        else if useCachedProjects st then
          match files w !! getCacheFile w with
          | Some (JsonText d) =>
              Ok (Resolved d) (set_alreadyLocated true (set_dirList d st))
                 (writeFileSync (getCacheFile w) (JsonText d) w)
          | Some Garbled => Ok (Rejected SyntaxError) st w
          | None =>
              if alreadyLocated st then Ok (Resolved (dirList st)) st w
              else Ok (Pending (existingRoots bases w)) (set_dirList [] st)
                      (withWalkers (existingRoots bases w) w)
          end
        else Ok (Pending (existingRoots bases w)) (set_dirList [] st)
                (withWalkers (existingRoots bases w) w)
    end.
Proof.
  unfold locateProjects_start, newPromise. munfold.
  destruct (baseFolders st) as [bases|] eqn:Hb; [|reflexivity].
  destruct (Z.of_nat (length bases) =? 0) eqn:Hlen; [reflexivity|].
  rewrite initializeCfg_cases.
  destruct (useCachedProjects st) eqn:Hc.
  - destruct (files w !! getCacheFile w) as [[d|]|] eqn:Hf.
    + unfold isAlreadyLocated. simpl. now rewrite Hc.
    + reflexivity.
    + unfold isAlreadyLocated. rewrite Hc. simpl.
      destruct (alreadyLocated st); [reflexivity|].
      unfold clearDirList. munfold. now rewrite startWalkers_run.
  - unfold isAlreadyLocated. simpl. rewrite Hc. simpl.
    unfold clearDirList. munfold. now rewrite startWalkers_run.
Qed.

(** When [locateProjects] returns with its promise pending, it has found
    no cache, emptied the list and started a walker on each base folder
    that exists. *)
Lemma locateProjects_start_pending st w roots st1 w1 :
  locateProjects_start st w = Ok (Pending roots) st1 w1 ->
  exists bases,
    baseFolders st = Some bases
    /\ roots = existingRoots bases w
    /\ st1 = set_dirList [] st
    /\ w1 = withWalkers roots w
    /\ isAlreadyLocated st = false
    /\ (useCachedProjects st = true -> files w !! getCacheFile w = None).
Proof.
  rewrite locateProjects_start_cases. unfold isAlreadyLocated.
  destruct (baseFolders st) as [bases|]; [|discriminate].
  destruct (Z.of_nat (length bases) =? 0); [discriminate|].
  destruct (useCachedProjects st).
  - destruct (files w !! getCacheFile w) as [[d|]|]; try discriminate.
    destruct (alreadyLocated st); [discriminate|].
    intros [= <- <- <-]. exists bases. auto 7.
  - intros [= <- <- <-]. exists bases. repeat split; auto; discriminate.
Qed.

(** A pending scan, once awaited, resolves with the discoveries of its
    walkers. *)
Lemma locateProjects_scan st w roots st1 w1 :
  locateProjects_start st w = Ok (Pending roots) st1 w1 ->
  let l := discoveries (scanEvents st w roots) in
  locateProjects st w =
    if useCachedProjects st then
      Ok (Resolved l) (set_alreadyLocated true (set_dirList l st))
         (writeFileSync (getCacheFile w) (JSON_stringify l)
            (withWalkers roots w))
    else Ok (Resolved l) (set_dirList l st) (withWalkers roots w).
Proof.
  intros Hs l.
  destruct (locateProjects_start_pending _ _ _ _ _ Hs)
    as [bases (Hb & Hr & -> & -> & Hl & Hf)].
  unfold locateProjects. unfold bind at 1. rewrite Hs.
  unfold runWalkers, locateProjects_settle. munfold.
  rewrite emitAll_run. simpl.
  change (scanEvents (set_dirList [] st) (withWalkers roots w) roots)
    with (scanEvents st w roots).
  fold l.
  destruct (useCachedProjects st) eqn:Hc.
  - rewrite setAlreadyLocated_true by exact Hc. reflexivity.
  - rewrite setAlreadyLocated_disabled by exact Hc. reflexivity.
Qed.

End Properties.

(** ** The scan: ignored folders, depth limit, duplicates *)

Section Scan.

Context {hooks : LocatorHooks} {putils : PathUtils} {host : Host}.

Lemma filterDir_not_ignored st depth dir :
  filterDir st depth dir = true ->
  isFolderIgnored st (Path.basename dir) = false.
Proof.
  unfold filterDir. intros H. apply negb_true_iff in H.
  now apply orb_false_iff in H as [H _].
Qed.

Lemma filterDir_within_depth st depth dir :
  filterDir st depth dir = true ->
  0 < maxDepth st ->
  getPathDepth dir - depth <= maxDepth st.
Proof.
  unfold filterDir, isMaxDeptReached. intros H Hpos.
  apply negb_true_iff in H. apply orb_false_iff in H as [_ H].
  apply andb_false_iff in H as [H | H].
  - apply Z.ltb_ge in H. lia.
  - now apply Z.ltb_ge in H.
Qed.

Lemma walkerEvents_accepted st w root ev :
  In ev (walkerEvents st w root) ->
  nodes w root <> None ->
  filterDir st (getPathDepth root) (eventEntry ev) = true.
Proof.
  unfold walkerEvents, walker. intros Hin Hn.
  destruct (nodes w root) as [n|]; [|congruence].
  exact (go_events_accepted _ _ _ _ Hin).
Qed.

Lemma occurrences_discoveries d evs :
  isRepoDir d = true ->
  occurrences d (discoveries evs) = sightings d evs.
Proof.
  intros Hd. unfold occurrences, sightings.
  induction evs as [|[x|x] evs IH]; [reflexivity| |].
  - rewrite discoveries_cons. simpl.
    destruct (String.eqb_spec x d) as [->|Hne].
    + rewrite Hd. simpl. rewrite String.eqb_refl. simpl. now f_equal.
    + destruct (isRepoDir x); [|exact IH]. simpl.
      destruct (String.eqb_spec x d); [contradiction | exact IH].
  - rewrite discoveries_cons. exact IH.
Qed.

Lemma discoveries_scanEvents st w roots :
  discoveries (scanEvents st w roots) =
    flat_map (fun root => discoveries (walkerEvents st w root)) roots.
Proof.
  unfold scanEvents. induction roots as [|root roots IH]; [reflexivity|].
  simpl. now rewrite discoveries_app, IH.
Qed.

(** C1 (as amended): during a scan started by [locateProjects], a
    directory whose base name is in the configured ignored set is the end
    of the walk: the walker reports nothing for it and nothing below it,
    so it is neither handed to [isRepoDir] nor descended into.  Every
    entry of the resulting list satisfies [isRepoDir] and was reached
    from a base folder through directories, itself included, whose base
    names are all outside the ignored set. *)
Theorem C1_ignored_folder_ends_walk st w roots st1 w1 :
  locateProjects_start st w = Ok (Pending roots) st1 w1 ->
  (forall depth entry n,
      isFolderIgnored st (Path.basename entry) = true ->
      go (filterDir st depth) entry n = [])
  /\ exists st2 w2,
      locateProjects st w = Ok (Resolved (dirList st2)) st2 w2
      /\ forall e,
          In e (dirList st2) ->
          isRepoDir (fullPath e) = true
          /\ exists root n trail,
              In root roots /\ nodes w root = Some n
              /\ Visit (filterDir st (getPathDepth root)) root n trail
                   (fullPath e)
              /\ Forall
                   (fun a => isFolderIgnored st (Path.basename a) = false)
                   (trail ++ [fullPath e]).
Proof.
  intros Hs. split.
  - intros depth entry n Hig. apply go_rejected.
    unfold filterDir. now rewrite Hig.
  - pose proof (locateProjects_scan _ _ _ _ _ Hs) as Hrun. simpl in Hrun.
    set (l := discoveries (scanEvents st w roots)) in *.
    assert (Hl : forall e, In e l ->
               isRepoDir (fullPath e) = true
               /\ exists root n trail,
                   In root roots /\ nodes w root = Some n
                   /\ Visit (filterDir st (getPathDepth root)) root n trail
                        (fullPath e)
                   /\ Forall
                        (fun a => isFolderIgnored st (Path.basename a) = false)
                        (trail ++ [fullPath e])).
    { intros e He. apply discoveries_In in He as [d (-> & Hr & Hd)].
      simpl. split; [exact Hr|].
      apply in_flat_map in Hd as [root [Hroot Hd]].
      unfold walkerEvents, walker in Hd.
      destruct (nodes w root) as [n|] eqn:Hn.
      - destruct (go_dir_visit _ _ _ _ Hd) as [trail Hv].
        exists root, n, trail. repeat split; try assumption.
        eapply List.Forall_impl; [|exact (visit_accepted _ _ _ _ _ Hv)].
        intros a Ha. exact (filterDir_not_ignored _ _ _ Ha).
      - destruct Hd as [Hd | []]. discriminate. }
    destruct (useCachedProjects st);
      [ exists (set_alreadyLocated true (set_dirList l st)),
          (writeFileSync (getCacheFile w) (JSON_stringify l)
             (withWalkers roots w))
      | exists (set_dirList l st), (withWalkers roots w) ];
      (split; [exact Hrun | exact Hl]).
Qed.

(** C2: with a configured [maxDepth] of [N > 0], every directory a walker
    of the scan reports (hands to [isRepoDir]) or tries to read lies at
    most [N] levels, counted with [getPathDepth], below the base folder
    the walker was started on; with [maxDepth <= 0] the depth test never
    holds, so that only ignored names prune the walk. *)
Theorem C2_depth_limit st :
  (0 < maxDepth st ->
   forall w roots ev,
     In ev (scanEvents st w roots) ->
     exists root,
       In root roots /\ In ev (walkerEvents st w root)
       /\ getPathDepth (eventEntry ev) - getPathDepth root <= maxDepth st)
  /\ (maxDepth st <= 0 ->
      (forall currentDepth initialDepth,
          isMaxDeptReached st currentDepth initialDepth = false)
      /\ forall depth dir,
          filterDir st depth dir
          = negb (isFolderIgnored st (Path.basename dir))).
Proof.
  split.
  - intros Hpos w roots ev Hin.
    apply in_flat_map in Hin as [root [Hroot Hin]].
    exists root. repeat split; try assumption.
    destruct (nodes w root) as [n|] eqn:Hn.
    + apply filterDir_within_depth; [|exact Hpos].
      apply (walkerEvents_accepted st w root ev Hin). congruence.
    + unfold walkerEvents, walker in Hin. rewrite Hn in Hin.
      destruct Hin as [<- | []]. simpl. lia.
  - intros Hle.
    assert (H : forall c i, isMaxDeptReached st c i = false).
    { intros c i. unfold isMaxDeptReached.
      destruct (0 <? maxDepth st) eqn:H0; [|reflexivity].
      apply Z.ltb_lt in H0. lia. }
    split; [exact H|].
    intros depth dir. unfold filterDir. rewrite H. now rewrite orb_false_r.
Qed.

(** C8: the scan does not de-duplicate.  [addToList] appends whatever the
    list holds already.  The list a scan resolves with holds, in some
    order, what each of its walkers discovered, every discovery once: a
    directory accepted by [isRepoDir] is the [fullPath] of as many entries
    as walkers reported it. *)
Theorem C8_no_deduplication st w roots st1 w1 :
  locateProjects_start st w = Ok (Pending roots) st1 w1 ->
  (forall projectPath projectName s v,
      exists s',
        addToList projectPath projectName s v = Ok tt s' v
        /\ dirList s' =
             dirList s ++
               [{| fullPath := projectPath;
                   name := config_get projectName
                             (Path.basename projectPath) |}])
  /\ exists st2 w2,
      locateProjects st w = Ok (Resolved (dirList st2)) st2 w2
      /\ Permutation (dirList st2)
           (flat_map (fun root => discoveries (walkerEvents st w root))
              roots)
      /\ forall d,
          isRepoDir d = true ->
          occurrences d (dirList st2) = sightings d (scanEvents st w roots).
Proof.
  intros Hs. split.
  - intros projectPath projectName s v. eexists. split; [reflexivity|].
    simpl. now destruct projectName.
  - pose proof (locateProjects_scan _ _ _ _ _ Hs) as Hrun. simpl in Hrun.
    set (l := discoveries (scanEvents st w roots)) in *.
    assert (Hperm : Permutation l
                      (flat_map
                         (fun root => discoveries (walkerEvents st w root))
                         roots))
      by (unfold l; rewrite discoveries_scanEvents; apply Permutation_refl).
    destruct (useCachedProjects st);
      [ exists (set_alreadyLocated true (set_dirList l st)),
          (writeFileSync (getCacheFile w) (JSON_stringify l)
             (withWalkers roots w))
      | exists (set_dirList l st), (withWalkers roots w) ];
      (split; [exact Hrun|]); simpl;
      (split; [exact Hperm|]);
      intros d Hd; now apply occurrences_discoveries.
Qed.

End Scan.

Import Fixture.

(** The walk of the scenario of the specification: base folder
    [/home/u/work], ignored [node_modules], depth 2. *)
Example scenario_events :
  scanEvents (Fixture.locator ["/home/u/work"] ["node_modules"] 2 true false [])
    Fixture.emptyDisk ["/home/u/work"]
  = [EvDir "/home/u/work"; EvDir "/home/u/work/a";
     EvDir "/home/u/work/a/.git"; EvDir "/home/u/work/a/x"].
Proof. reflexivity. Qed.

Example scenario_result :
  exists st w,
    locateProjects
      (Fixture.locator ["/home/u/work"] ["node_modules"] 2 true false [])
      Fixture.emptyDisk
    = Ok (Resolved [Fixture.projA]) st w.
Proof. eexists. eexists. vm_compute. reflexivity. Qed.

Lemma C1_ignored_folder_ends_walk_witness :
  let st := Fixture.locator ["/srv"] ["node_modules"] (-1) true false [] in
  let w := Fixture.emptyDisk in
  let roots := ["/srv"] in
  locateProjects_start st w
  = Ok (Pending roots) (set_dirList [] st) (withWalkers roots w)
  /\ (forall depth entry n,
         isFolderIgnored st (Path.basename entry) = true ->
         go (filterDir st depth) entry n = [])
  /\ exists st2 w2,
      locateProjects st w = Ok (Resolved (dirList st2)) st2 w2
      /\ forall e,
          In e (dirList st2) ->
          isRepoDir (fullPath e) = true
          /\ exists root n trail,
              In root roots /\ nodes w root = Some n
              /\ Visit (filterDir st (getPathDepth root)) root n trail
                   (fullPath e)
              /\ Forall
                   (fun a => isFolderIgnored st (Path.basename a) = false)
                   (trail ++ [fullPath e]).
Proof.
  intros st w roots.
  assert (Hs : locateProjects_start st w
               = Ok (Pending roots) (set_dirList [] st) (withWalkers roots w))
    by reflexivity.
  split; [exact Hs|].
  exact (C1_ignored_folder_ends_walk st w roots _ _ Hs).
Defined.

(** Counterexample to C1 as the specification words it (an ignored
    directory is still tested and listed when [isRepoDir] holds for it):
    [/srv/node_modules] is a directory of the base folder [/srv], its base
    name is ignored and [isRepoDir] holds for it, yet the scan neither
    hands it to [processDirectory] nor lists it. *)
Lemma C1_ignored_folder_itself_not_listed :
  let st := Fixture.locator ["/srv"] ["node_modules"] (-1) true false [] in
  let w := Fixture.emptyDisk in
  let d := "/srv/node_modules" in
  (exists entries child,
      nodes w "/srv" = Some (Dir true entries)
      /\ In ("node_modules", child) entries
      /\ d = Path.join ["/srv"; "node_modules"])
  /\ isFolderIgnored st (Path.basename d) = true
  /\ isRepoDir d = true
  /\ ~ In (EvDir d) (scanEvents st w ["/srv"])
  /\ exists st' w',
      locateProjects st w
      = Ok (Resolved [{| fullPath := "/srv/proj"; name := "proj" |}]) st' w'
      /\ ~ In d (map fullPath (dirList st')).
Proof.
  intros st w d. split; [|split; [|split; [|split]]].
  - eexists. eexists. split; [reflexivity|]. split; [|reflexivity].
    right. left. reflexivity.
  - reflexivity.
  - reflexivity.
  - vm_compute. intros [H|[H|[H|[]]]]; discriminate.
  - eexists. eexists. split; [vm_compute; reflexivity|].
    vm_compute. intros [H|[]]. discriminate.
Qed.

Lemma C2_depth_limit_witness :
  let st := Fixture.locator ["/home/u/work"] ["node_modules"] 2 true false [] in
  let w := Fixture.emptyDisk in
  let roots := ["/home/u/work"] in
  let ev := EvDir "/home/u/work/a/x" in
  0 < maxDepth st
  /\ In ev (scanEvents st w roots)
  /\ (exists root,
         In root roots /\ In ev (walkerEvents st w root)
         /\ getPathDepth (eventEntry ev) - getPathDepth root <= maxDepth st)
  /\ ~ In (EvDir "/home/u/work/a/x/y") (scanEvents st w roots)
  /\ (let st0 := Fixture.locator ["/home/u/work"] [] (-1) true false [] in
      maxDepth st0 <= 0
      /\ (forall currentDepth initialDepth,
             isMaxDeptReached st0 currentDepth initialDepth = false)
      /\ In (EvDir "/home/u/work/a/x/y") (scanEvents st0 w roots)).
Proof.
  intros st w roots ev.
  assert (Hpos : 0 < maxDepth st) by reflexivity.
  assert (Hin : In ev (scanEvents st w roots))
    by (right; right; right; left; reflexivity).
  split; [exact Hpos|]. split; [exact Hin|].
  split; [exact (proj1 (C2_depth_limit st) Hpos w roots ev Hin)|].
  split.
  - vm_compute. intros [H|[H|[H|[H|[]]]]]; discriminate.
  - intros st0.
    assert (Hle : maxDepth st0 <= 0) by (vm_compute; discriminate).
    split; [exact Hle|].
    split; [exact (proj1 (proj2 (C2_depth_limit st0) Hle))|].
    vm_compute. tauto.
Defined.

Lemma C8_no_deduplication_witness :
  let st := Fixture.locator ["/home/u/work"; "/home/u/work/a"]
              ["node_modules"] 2 true false [] in
  let w := Fixture.emptyDisk in
  let roots := ["/home/u/work"; "/home/u/work/a"] in
  let a := "/home/u/work/a" in
  locateProjects_start st w
  = Ok (Pending roots) (set_dirList [] st) (withWalkers roots w)
  /\ isRepoDir a = true
  /\ sightings a (scanEvents st w roots) = 2%nat
  /\ exists st2 w2,
      locateProjects st w = Ok (Resolved (dirList st2)) st2 w2
      /\ Permutation (dirList st2)
           (flat_map (fun root => discoveries (walkerEvents st w root))
              roots)
      /\ occurrences a (dirList st2) = 2%nat.
Proof.
  intros st w roots a.
  assert (Hs : locateProjects_start st w
               = Ok (Pending roots) (set_dirList [] st) (withWalkers roots w))
    by reflexivity.
  assert (Hrepo : isRepoDir a = true) by reflexivity.
  assert (Hseen : sightings a (scanEvents st w roots) = 2%nat)
    by reflexivity.
  split; [exact Hs|]. split; [exact Hrepo|]. split; [exact Hseen|].
  destruct (proj2 (C8_no_deduplication st w roots _ _ Hs))
    as (st2 & w2 & Hrun & Hperm & Hocc).
  exists st2, w2. split; [exact Hrun|]. split; [exact Hperm|].
  exact (eq_trans (Hocc a Hrepo) Hseen).
Defined.

(** Overlapping base folders: the project under both is listed twice, with
    the same [fullPath]. *)
Example overlapping_base_folders :
  exists st w,
    locateProjects
      (Fixture.locator ["/home/u/work"; "/home/u/work/a"]
         ["node_modules"] 2 true false [])
      Fixture.emptyDisk
    = Ok (Resolved [Fixture.projA; Fixture.projA;
                    {| fullPath := "/home/u/work/a/x/y"; name := "y" |}])
         st w.
Proof. eexists. eexists. vm_compute. reflexivity. Qed.

(** Two base folders, each with a project named [proj]: two entries. *)
Example same_name_in_two_base_folders :
  exists st w,
    locateProjects
      (Fixture.locator ["/srv"; "/opt"] ["node_modules"] (-1) true false [])
      Fixture.emptyDisk
    = Ok (Resolved [{| fullPath := "/srv/proj"; name := "proj" |};
                    {| fullPath := "/opt/proj"; name := "proj" |}]) st w.
Proof. eexists. eexists. vm_compute. reflexivity. Qed.

(** ** The cache *)

Section Cache.

Context {hooks : LocatorHooks} {putils : PathUtils} {host : Host}.

(** C4: with caching enabled, a call of [locateProjects] that has
    resolved with a list is followed, when nothing changed in between, by
    a call that resolves with the same list already in its synchronous
    part, out of the cache: it leaves locator and world as they are, so
    that no walker is started. *)
Theorem C4_second_call_served_from_cache st w l st1 w1 :
  useCachedProjects st = true ->
  locateProjects st w = Ok (Resolved l) st1 w1 ->
  locateProjects_start st1 w1 = Ok (Resolved l) st1 w1
  /\ locateProjects st1 w1 = Ok (Resolved l) st1 w1
  /\ walkers (worldOf (locateProjects st1 w1)) = walkers w1.
Proof.
  intros Hc Hrun.
  assert (Hstart : locateProjects_start st1 w1 = Ok (Resolved l) st1 w1).
  { revert Hrun. unfold locateProjects. unfold bind at 1.
    rewrite locateProjects_start_cases.
    destruct (baseFolders st) as [bases|] eqn:Hb; [|discriminate].
    destruct (Z.of_nat (length bases) =? 0) eqn:Hlen.
    { intros [= <- <- <-]. rewrite locateProjects_start_cases.
      now rewrite Hb, Hlen. }
    rewrite Hc.
    destruct (files w !! getCacheFile w) as [[d|]|] eqn:Hf;
      [| discriminate |].
    - (* a cache on disk *)
      intros [= <- <- <-]. rewrite (writeFileSync_same _ _ _ Hf).
      rewrite locateProjects_start_cases. simpl.
      rewrite Hb, Hlen, Hc, Hf.
      now rewrite (writeFileSync_same _ _ _ Hf).
    - destruct (alreadyLocated st) eqn:Hl.
      + (* located, the file is gone *)
        intros [= <- <- <-]. rewrite locateProjects_start_cases.
        now rewrite Hb, Hlen, Hc, Hf, Hl.
      + (* the scan *)
        unfold runWalkers, locateProjects_settle. munfold.
        rewrite emitAll_run. simpl.
        rewrite setAlreadyLocated_true by exact Hc. simpl.
        set (roots := existingRoots bases w).
        set (found := discoveries
                        (scanEvents (set_dirList [] st)
                           (withWalkers roots w) roots)).
        intros [= <- <- <-].
        change (getCacheFile (withWalkers roots w)) with (getCacheFile w).
        set (t := JSON_stringify found).
        assert (Hcf : getCacheFile
                        (writeFileSync (getCacheFile w) t
                           (withWalkers roots w))
                      = getCacheFile w)
          by exact (getCacheFile_write t (withWalkers roots w)).
        assert (Hlook : files (writeFileSync (getCacheFile w) t
                                 (withWalkers roots w))
                          !! getCacheFile w = Some t)
          by (simpl; apply lookup_insert_eq).
        remember (writeFileSync (getCacheFile w) t (withWalkers roots w))
          as w2 eqn:Hw2.
        rewrite locateProjects_start_cases. simpl.
        rewrite Hb, Hlen, Hc, Hcf, Hlook. unfold t at 1. simpl.
        now rewrite (writeFileSync_same (getCacheFile w) (JsonText found)
                       w2 Hlook). }
  assert (Hfull : locateProjects st1 w1 = Ok (Resolved l) st1 w1).
  { unfold locateProjects. unfold bind. now rewrite Hstart. }
  repeat split; [exact Hstart | exact Hfull | now rewrite Hfull].
Qed.

Lemma existsWithRootPath_run p st w :
  existsWithRootPath p st w =
    match initializeCfg getKind st w with
    | Ok _ st1 w1 =>
        if isAlreadyLocated st1 then
          Ok (findElement p (toLocaleLowerCase (compactHomePath p))
                (dirList st1)) st1 w1
        else Ok Null st1 w1
    | Throw e st1 w1 => Throw e st1 w1
    end.
Proof.
  unfold existsWithRootPath. munfold.
  destruct (initializeCfg getKind st w) as [[] st1 w1|e st1 w1];
    [|reflexivity].
  now destruct (isAlreadyLocated st1).
Qed.

Lemma matchesRoot_samePath p element :
  matchesRoot p (toLocaleLowerCase (compactHomePath p)) element = true
  <-> samePath p element.
Proof.
  unfold matchesRoot, samePath. rewrite orb_true_iff.
  now rewrite !String.eqb_eq.
Qed.

(** The loop returns the first entry that matches. *)
Lemma findElement_found p l :
  (exists e, In e l /\ samePath p e) ->
  exists e,
    In e l /\ samePath p e
    /\ findElement p (toLocaleLowerCase (compactHomePath p)) l
       = Found (toProject e).
Proof.
  induction l as [|x l IH]; intros [e [Hin Hsame]]; [contradiction|].
  simpl.
  destruct (matchesRoot p (toLocaleLowerCase (compactHomePath p)) x) eqn:Hm.
  - exists x. apply matchesRoot_samePath in Hm. auto using in_eq.
  - destruct Hin as [-> | Hin].
    + apply matchesRoot_samePath in Hsame. congruence.
    + destruct IH as [e' (Hin' & Hsame' & Hfind)]; [eauto|].
      exists e'. auto using in_cons.
Qed.

Lemma initializeCfg_walkers kind st w st1 w1 :
  initializeCfg kind st w = Ok tt st1 w1 ->
  walkers w1 = walkers w /\ nodes w1 = nodes w.
Proof.
  rewrite initializeCfg_cases.
  destruct (useCachedProjects st);
    [destruct (files w !! getCacheFile w) as [[d|]|]|];
    try discriminate; intros [= <- <-]; auto.
Qed.

(** C6 (as amended): [existsWithRootPath(p)] first runs [initializeCfg],
    which with caching enabled loads a cache file found on disk in place
    of the list in memory, and then tests [isAlreadyLocated()].  When the
    locator is located at that test and some entry of [dirList] has, up to
    case, the path [p] or the home-compacted form of [p], the result is
    the project made of such an entry: its [fullPath] as [rootPath], its
    [name], an empty group and no paths.  When it is not located at that
    test the result is [null].  In both cases no walker is started.  Seen
    from before the call: a located locator whose cache on disk, if any,
    is the one it wrote finds the entry; a locator with caching disabled,
    or with nothing located and no cache file to load, answers [null] and
    leaves the world as it is. *)
Theorem C6_existsWithRootPath p :
  (forall st w st1 w1,
      initializeCfg getKind st w = Ok tt st1 w1 ->
      isAlreadyLocated st1 = true ->
      (exists e, In e (dirList st1) /\ samePath p e) ->
      exists e,
        In e (dirList st1) /\ samePath p e
        /\ existsWithRootPath p st w
           = Ok (Found {| rootPath := fullPath e; projName := name e;
                          group := EmptyString; paths := [] |}) st1 w1
        /\ walkers w1 = walkers w)
  /\ (forall st w st1 w1,
        initializeCfg getKind st w = Ok tt st1 w1 ->
        isAlreadyLocated st1 = false ->
        existsWithRootPath p st w = Ok Null st1 w1
        /\ walkers w1 = walkers w)
  /\ (forall st w,
        isAlreadyLocated st = true ->
        cacheCoherent st w ->
        (exists e, In e (dirList st) /\ samePath p e) ->
        exists e,
          In e (dirList st) /\ samePath p e
          /\ existsWithRootPath p st w
             = Ok (Found {| rootPath := fullPath e; projName := name e;
                            group := EmptyString; paths := [] |}) st w)
  /\ (forall st w,
        useCachedProjects st = false
        \/ (alreadyLocated st = false
            /\ existsSync (getCacheFile w) w = false) ->
        exists st1, existsWithRootPath p st w = Ok Null st1 w).
Proof.
  assert (HA : forall st w st1 w1,
             initializeCfg getKind st w = Ok tt st1 w1 ->
             isAlreadyLocated st1 = true ->
             (exists e, In e (dirList st1) /\ samePath p e) ->
             exists e,
               In e (dirList st1) /\ samePath p e
               /\ existsWithRootPath p st w
                  = Ok (Found {| rootPath := fullPath e; projName := name e;
                                 group := EmptyString; paths := [] |}) st1 w1
               /\ walkers w1 = walkers w).
  { intros st w st1 w1 Hinit Hloc Hex.
    destruct (findElement_found p _ Hex) as [e (Hin & Hsame & Hfind)].
    exists e. repeat split; try assumption.
    - rewrite existsWithRootPath_run, Hinit, Hloc. now rewrite Hfind.
    - exact (proj1 (initializeCfg_walkers _ _ _ _ _ Hinit)). }
  assert (HB : forall st w st1 w1,
             initializeCfg getKind st w = Ok tt st1 w1 ->
             isAlreadyLocated st1 = false ->
             existsWithRootPath p st w = Ok Null st1 w1
             /\ walkers w1 = walkers w).
  { intros st w st1 w1 Hinit Hloc. split.
    - now rewrite existsWithRootPath_run, Hinit, Hloc.
    - exact (proj1 (initializeCfg_walkers _ _ _ _ _ Hinit)). }
  split; [exact HA|]. split; [exact HB|]. split.
  - intros st w Hloc Hcoh Hex.
    assert (Hinit : initializeCfg getKind st w = Ok tt st w).
    { unfold isAlreadyLocated in Hloc.
      apply andb_true_iff in Hloc as [Hc Hl].
      rewrite initializeCfg_cases, Hc. unfold cacheCoherent in Hcoh.
      destruct (files w !! getCacheFile w) as [t|] eqn:Hf; [|reflexivity].
      subst t. unfold JSON_stringify in *.
      rewrite (writeFileSync_same _ _ _ Hf).
      destruct st; simpl in *; now subst. }
    destruct (HA st w st w Hinit Hloc Hex) as [e (Hin & Hsame & Hrun & _)].
    exists e. auto.
  - intros st w Hno.
    assert (Hinit : exists st1,
               initializeCfg getKind st w = Ok tt st1 w
               /\ isAlreadyLocated st1 = false).
    { rewrite initializeCfg_cases. unfold isAlreadyLocated.
      destruct Hno as [Hc | [Hl Hf]].
      - rewrite Hc. eexists. split; [reflexivity|]. simpl. now rewrite Hc.
      - unfold existsSync in Hf. destruct (useCachedProjects st) eqn:Hc.
        + destruct (files w !! getCacheFile w); [discriminate|].
          eexists. split; [reflexivity|]. now rewrite Hc, Hl.
        + eexists. split; [reflexivity|]. simpl. now rewrite Hc. }
    destruct Hinit as [st1 [Hinit Hloc]]. exists st1.
    exact (proj1 (HB st w st1 w Hinit Hloc)).
Qed.

(** C7: with caching enabled and a cache file that does not parse,
    [initializeCfg] throws the [SyntaxError] of [JSON.parse] and leaves
    the locator and the disk as they were: the list in memory is kept,
    not emptied, and the located flag is not set.  [existsWithRootPath],
    which calls it unguarded, throws in turn. *)
Theorem C7_corrupt_cache_throws kind st w :
  useCachedProjects st = true ->
  files w !! getCacheFile w = Some Garbled ->
  initializeCfg kind st w = Throw SyntaxError st w
  /\ forall p, existsWithRootPath p st w = Throw SyntaxError st w.
Proof.
  intros Hc Hf. split.
  - now apply initializeCfg_garbled.
  - intros p. rewrite existsWithRootPath_run.
    now rewrite (initializeCfg_garbled _ _ _ Hc Hf).
Qed.

End Cache.

Lemma C4_second_call_served_from_cache_witness :
  let st := Fixture.locator ["/home/u/work"] ["node_modules"] 2 true false [] in
  let w := Fixture.emptyDisk in
  let st1 := stateOf (locateProjects st w) in
  let w1 := worldOf (locateProjects st w) in
  useCachedProjects st = true
  /\ locateProjects st w = Ok (Resolved [Fixture.projA]) st1 w1
  /\ walkers w1 = ["/home/u/work"]
  /\ locateProjects_start st1 w1 = Ok (Resolved [Fixture.projA]) st1 w1
  /\ locateProjects st1 w1 = Ok (Resolved [Fixture.projA]) st1 w1
  /\ walkers (worldOf (locateProjects st1 w1)) = walkers w1.
Proof.
  intros st w st1 w1.
  assert (Hc : useCachedProjects st = true) by reflexivity.
  assert (Hrun : locateProjects st w = Ok (Resolved [Fixture.projA]) st1 w1)
    by (vm_compute; reflexivity).
  split; [exact Hc|]. split; [exact Hrun|].
  split; [vm_compute; reflexivity|].
  exact (C4_second_call_served_from_cache st w _ st1 w1 Hc Hrun).
Defined.

Lemma C6_existsWithRootPath_witness :
  let p := "/Home/U/Work/A" in
  let fresh := Fixture.locator ["/home/u/work"] [] (-1) true false [] in
  let located := Fixture.locator ["/home/u/work"] [] (-1) true true
                   [Fixture.projA] in
  let onDisk := Fixture.cachedDisk (JsonText [Fixture.projA]) in
  let st1 := stateOf (initializeCfg getKind fresh onDisk) in
  let w1 := worldOf (initializeCfg getKind fresh onDisk) in
  (initializeCfg getKind fresh onDisk = Ok tt st1 w1
   /\ isAlreadyLocated st1 = true
   /\ exists e,
       In e (dirList st1) /\ samePath p e
       /\ existsWithRootPath p fresh onDisk
          = Ok (Found {| rootPath := fullPath e; projName := name e;
                         group := EmptyString; paths := [] |}) st1 w1
       /\ walkers w1 = walkers onDisk)
  /\ (initializeCfg getKind fresh Fixture.emptyDisk
      = Ok tt fresh Fixture.emptyDisk
      /\ isAlreadyLocated fresh = false
      /\ existsWithRootPath p fresh Fixture.emptyDisk
         = Ok Null fresh Fixture.emptyDisk)
  /\ (isAlreadyLocated located = true
      /\ cacheCoherent located Fixture.emptyDisk
      /\ exists e,
          In e (dirList located) /\ samePath p e
          /\ existsWithRootPath p located Fixture.emptyDisk
             = Ok (Found {| rootPath := fullPath e; projName := name e;
                            group := EmptyString; paths := [] |})
                  located Fixture.emptyDisk)
  /\ (alreadyLocated fresh = false
      /\ existsSync (getCacheFile Fixture.emptyDisk) Fixture.emptyDisk = false
      /\ exists st', existsWithRootPath p fresh Fixture.emptyDisk
                     = Ok Null st' Fixture.emptyDisk).
Proof.
  intros p fresh located onDisk st1 w1.
  destruct (C6_existsWithRootPath p) as (HA & HB & HC & HD).
  assert (Hinit : initializeCfg getKind fresh onDisk = Ok tt st1 w1)
    by (vm_compute; reflexivity).
  assert (Hloc1 : isAlreadyLocated st1 = true) by (vm_compute; reflexivity).
  assert (Hex1 : exists e, In e (dirList st1) /\ samePath p e).
  { exists Fixture.projA. split; [left; vm_compute; reflexivity|].
    left. vm_compute. reflexivity. }
  assert (Hinit0 : initializeCfg getKind fresh Fixture.emptyDisk
                   = Ok tt fresh Fixture.emptyDisk)
    by (vm_compute; reflexivity).
  assert (Hloc0 : isAlreadyLocated fresh = false) by reflexivity.
  assert (Hloc : isAlreadyLocated located = true) by reflexivity.
  assert (Hcoh : cacheCoherent located Fixture.emptyDisk)
    by (vm_compute; exact I).
  assert (Hex : exists e, In e (dirList located) /\ samePath p e).
  { exists Fixture.projA. split; [left; reflexivity|].
    left. vm_compute. reflexivity. }
  assert (Hl : alreadyLocated fresh = false) by reflexivity.
  assert (Hf : existsSync (getCacheFile Fixture.emptyDisk) Fixture.emptyDisk
               = false) by (vm_compute; reflexivity).
  split; [|split; [|split]].
  - split; [exact Hinit|]. split; [exact Hloc1|].
    exact (HA fresh onDisk st1 w1 Hinit Hloc1 Hex1).
  - split; [exact Hinit0|]. split; [exact Hloc0|].
    exact (proj1 (HB fresh Fixture.emptyDisk _ _ Hinit0 Hloc0)).
  - split; [exact Hloc|]. split; [exact Hcoh|].
    exact (HC located Fixture.emptyDisk Hloc Hcoh Hex).
  - split; [exact Hl|]. split; [exact Hf|].
    exact (HD fresh Fixture.emptyDisk (or_intror (conj Hl Hf))).
Defined.

(** Counterexample to C6 as the specification words it, read on the
    locator as it is before the call.  A locator that has completed no
    scan and loaded no cache answers with a record, not [null], when a
    cache file is on disk: the lookup loads it.  And a located locator
    whose list holds the path answers [undefined], not a record, when the
    cache file on disk holds another list: the lookup puts that list in
    place of the one in memory. *)
Lemma C6_lookup_reads_cache_on_disk :
  (let fresh := Fixture.locator ["/home/u/work"] [] (-1) true false [] in
   let w := Fixture.cachedDisk (JsonText [Fixture.projA]) in
   alreadyLocated fresh = false
   /\ dirList fresh = []
   /\ exists st1 w1,
       existsWithRootPath "/home/u/work/a" fresh w
       = Ok (Found {| rootPath := "/home/u/work/a"; projName := "a";
                      group := EmptyString; paths := [] |}) st1 w1)
  /\ (let located := Fixture.locator ["/home/u/work"] [] (-1) true true
                       [Fixture.projA] in
      let w := Fixture.cachedDisk (JsonText []) in
      isAlreadyLocated located = true
      /\ In Fixture.projA (dirList located)
      /\ samePath "/home/u/work/a" Fixture.projA
      /\ exists st1 w1,
          existsWithRootPath "/home/u/work/a" located w
          = Ok Undefined st1 w1
          /\ dirList st1 = []).
Proof.
  split.
  - split; [reflexivity|]. split; [reflexivity|].
    eexists. eexists. vm_compute. reflexivity.
  - split; [reflexivity|]. split; [left; reflexivity|].
    split; [left; vm_compute; reflexivity|].
    eexists. eexists. split; vm_compute; reflexivity.
Qed.

(** A path given in full matches an entry stored in home-compacted form,
    up to case; without a match the result is [undefined]. *)
Example compacted_entry_found :
  let compacted := {| fullPath := "$home/work/a"; name := "a" |} in
  let st := Fixture.locator ["~/work"] [] (-1) true true [compacted] in
  existsWithRootPath "/home/u/Work/A" st Fixture.emptyDisk
  = Ok (Found {| rootPath := "$home/work/a"; projName := "a";
                 group := EmptyString; paths := [] |}) st Fixture.emptyDisk
  /\ existsWithRootPath "/home/u/work/b" st Fixture.emptyDisk
     = Ok Undefined st Fixture.emptyDisk.
Proof. split; vm_compute; reflexivity. Qed.

Lemma C7_corrupt_cache_throws_witness :
  let st := Fixture.locator ["/home/u/work"] [] (-1) true false
              [Fixture.projA] in
  let w := Fixture.cachedDisk Garbled in
  useCachedProjects st = true
  /\ files w !! getCacheFile w = Some Garbled
  /\ initializeCfg getKind st w = Throw SyntaxError st w
  /\ forall p, existsWithRootPath p st w = Throw SyntaxError st w.
Proof.
  intros st w.
  assert (Hc : useCachedProjects st = true) by reflexivity.
  assert (Hf : files w !! getCacheFile w = Some Garbled)
    by (vm_compute; reflexivity).
  split; [exact Hc|]. split; [exact Hf|].
  exact (C7_corrupt_cache_throws getKind st w Hc Hf).
Defined.

(** Inside [locateProjects] the same failure rejects the promise. *)
Example corrupt_cache_rejects_locateProjects :
  let st := Fixture.locator ["/home/u/work"] [] (-1) true false [] in
  let w := Fixture.cachedDisk Garbled in
  locateProjects st w = Ok (Rejected SyntaxError) st w.
Proof. vm_compute. reflexivity. Qed.

(** ** Configuration refresh *)

Section Refresh.

Context {hooks : LocatorHooks} {putils : PathUtils} {host : Host}.

Lemma sameElement_eq x y : sameElement x y = true <-> x = y.
Proof.
  destruct x as [a|], y as [b|]; simpl; try (split; congruence).
  rewrite String.eqb_eq. split; congruence.
Qed.

Lemma arraysLoop_true a b n :
  forall i,
    arraysLoop a b i n = true
    <-> forall j, (i <= j < i + n)%nat -> a !! j = b !! j.
Proof.
  induction n as [|n IH]; intros i; simpl.
  - split; [intros _ j Hj; lia | reflexivity].
  - destruct (sameElement (a !! i) (b !! i)) eqn:Hs; simpl.
    + apply sameElement_eq in Hs. rewrite IH. split.
      * intros H j Hj. destruct (Nat.eq_dec j i) as [->|Hne]; [exact Hs|].
        apply H. lia.
      * intros H j Hj. apply H. lia.
    + split; [discriminate|]. intros H.
      assert (Heq : a !! i = b !! i) by (apply H; lia).
      apply sameElement_eq in Heq. congruence.
Qed.

(** On two arrays the test is element-wise equality. *)
Lemma arraysAreEquals_eq a b :
  arraysAreEquals (Some a) (Some b) = true <-> a = b.
Proof.
  unfold arraysAreEquals.
  destruct (Nat.eqb_spec (length a) (length b)) as [Hlen|Hlen]; simpl.
  - rewrite arraysLoop_true. split.
    + intros H. apply list_eq. intros j.
      destruct (Nat.lt_ge_cases j (length a)) as [Hlt|Hge].
      * apply H. lia.
      * rewrite (lookup_ge_None_2 a j) by lia.
        now rewrite (lookup_ge_None_2 b j) by lia.
    + now intros ->.
  - split; [discriminate | intros ->; contradiction].
Qed.

Lemma arraysAreEquals_true x y :
  arraysAreEquals x y = true -> x = y.
Proof.
  destruct x as [a|], y as [b|]; try discriminate.
  intros H. now apply arraysAreEquals_eq in H as ->.
Qed.

(** What [refreshConfig] returns and stores. *)
Lemma refreshConfig_run config st w :
  let newBase := cfg_baseFolders config in
  let newIgnored := config_get (cfg_ignoredFolders config) [] in
  let newDepth := config_get (cfg_maxDepthRecursion config) (-1) in
  let newCache := config_get (cfg_cacheProjectsBetweenSessions config) true in
  let changedBase := negb (arraysAreEquals (baseFolders st) newBase) in
  let changedIgnored := negb (arraysAreEquals newBase (Some newIgnored)) in
  let changedDepth := negb (maxDepth st =? newDepth) in
  let changedCache := negb (Bool.eqb (useCachedProjects st) newCache) in
  refreshConfig config st w =
    Ok (changedBase || changedIgnored || changedDepth || changedCache)
       (refreshed config st) w.
Proof.
  intros newBase newIgnored newDepth newCache.
  unfold refreshConfig, refreshed. munfold.
  fold newBase newIgnored newDepth newCache.
  destruct (arraysAreEquals (baseFolders st) newBase) eqn:Hb; simpl.
  - apply arraysAreEquals_true in Hb. rewrite Hb.
    destruct (arraysAreEquals newBase (Some newIgnored)); simpl;
      destruct (Z.eqb_spec (maxDepth st) newDepth) as [Hd|Hd]; simpl;
      destruct (useCachedProjects st) eqn:Hc, newCache; simpl;
      rewrite ?Hd; destruct st; simpl in *; subst; reflexivity.
  - destruct (arraysAreEquals newBase (Some newIgnored)); simpl;
      destruct (Z.eqb_spec (maxDepth st) newDepth) as [Hd|Hd]; simpl;
      destruct (useCachedProjects st) eqn:Hc, newCache; simpl;
      rewrite ?Hd; destruct st; simpl in *; subst; reflexivity.
Qed.

(** C3: the test for the ignored-folders key compares the value just read
    with the [baseFolders] field, as it stands once the base-folders key
    has been handled, not with the [ignoredFolders] field.  The key
    counts as changed, and the value read is stored, exactly when it is
    not element-wise the array in [baseFolders]; the previous
    [ignoredFolders] has no part in the flag returned.  That flag is the
    same when the comparison is taken against [baseFolders] as it was
    before the call. *)
Theorem C3_ignoredFolders_compared_with_baseFolders config st w :
  let newBase := cfg_baseFolders config in
  let newIgnored := config_get (cfg_ignoredFolders config) [] in
  let compared :=
    if arraysAreEquals (baseFolders st) newBase then baseFolders st
    else newBase in
  let changedIgnored := negb (arraysAreEquals compared (Some newIgnored)) in
  let changedOther :=
    negb (arraysAreEquals (baseFolders st) newBase)
    || negb (maxDepth st =? config_get (cfg_maxDepthRecursion config) (-1))
    || negb (Bool.eqb (useCachedProjects st)
               (config_get (cfg_cacheProjectsBetweenSessions config) true)) in
  exists st',
    refreshConfig config st w = Ok (changedIgnored || changedOther) st' w
    /\ baseFolders st' = compared
    /\ ignoredFolders st'
        = (if changedIgnored then newIgnored else ignoredFolders st)
    /\ (changedIgnored = false <-> compared = Some newIgnored)
    /\ changedIgnored || changedOther
        = negb (arraysAreEquals (baseFolders st) (Some newIgnored))
          || changedOther
    /\ forall previous,
        exists st'',
          refreshConfig config (set_ignoredFolders previous st) w
          = Ok (changedIgnored || changedOther) st'' w.
Proof.
  intros newBase newIgnored compared changedIgnored changedOther.
  assert (Hcmp : compared = newBase).
  { unfold compared.
    destruct (arraysAreEquals (baseFolders st) newBase) eqn:Hb;
      [now apply arraysAreEquals_true in Hb | reflexivity]. }
  assert (Hflag : forall s,
             baseFolders s = baseFolders st -> maxDepth s = maxDepth st ->
             useCachedProjects s = useCachedProjects st ->
             exists s',
               refreshConfig config s w
               = Ok (changedIgnored || changedOther) s' w
               /\ baseFolders s' = compared
               /\ ignoredFolders s'
                   = (if changedIgnored then newIgnored
                      else ignoredFolders s)).
  { intros s Hb Hd Hc. eexists. rewrite refreshConfig_run.
    rewrite Hb, Hd, Hc. fold newBase newIgnored.
    unfold changedIgnored, changedOther. rewrite Hcmp.
    split; [f_equal; now destruct (arraysAreEquals (baseFolders st) newBase),
              (arraysAreEquals newBase (Some newIgnored)),
              (maxDepth st =? config_get (cfg_maxDepthRecursion config) (-1)),
              (Bool.eqb (useCachedProjects st)
                 (config_get (cfg_cacheProjectsBetweenSessions config) true))
           |].
    split; reflexivity. }
  destruct (Hflag st eq_refl eq_refl eq_refl) as [st' (Hrun & Hb' & Hi')].
  exists st'. split; [exact Hrun|]. split; [exact Hb'|]. split; [exact Hi'|].
  split; [|split].
  - unfold changedIgnored. rewrite negb_false_iff. split.
    + apply arraysAreEquals_true.
    + intros ->. now apply arraysAreEquals_eq.
  - unfold changedIgnored, changedOther, compared.
    destruct (arraysAreEquals (baseFolders st) newBase); [reflexivity|].
    simpl. now rewrite !orb_true_r.
  - intros previous.
    destruct (Hflag (set_ignoredFolders previous st) eq_refl eq_refl eq_refl)
      as [st'' [Hrun' _]].
    now exists st''.
Qed.

(** C10: [arraysAreEquals] is false as soon as one argument is missing,
    also when both are.  Hence [refreshConfig] returns true whenever the
    host has no array for the base-folders key, whatever the locator
    holds, also when its [baseFolders] is missing as well. *)
Theorem C10_missing_array_never_equal :
  (forall a,
      arraysAreEquals None a = false /\ arraysAreEquals a None = false)
  /\ forall config st w,
      cfg_baseFolders config = None ->
      exists st',
        refreshConfig config st w = Ok true st' w
        /\ baseFolders st' = None.
Proof.
  split.
  - intros a. split; [reflexivity | now destruct a].
  - intros config st w Hnone. exists (refreshed config st).
    rewrite refreshConfig_run, Hnone.
    replace (arraysAreEquals (baseFolders st) None) with false
      by now destruct (baseFolders st).
    split; [reflexivity | exact Hnone].
Qed.

End Refresh.

(** ** [refreshProjects] *)

Section RefreshProjects.

Context {hooks : LocatorHooks} {putils : PathUtils} {host : Host}.

Lemma refreshConfig_ok config st w :
  exists changed,
    refreshConfig config st w = Ok changed (refreshed config st) w
    /\ dirList (refreshed config st) = dirList st
    /\ alreadyLocated (refreshed config st) = alreadyLocated st
    /\ baseFolders (refreshed config st) = cfg_baseFolders config
    /\ useCachedProjects (refreshed config st)
       = config_get (cfg_cacheProjectsBetweenSessions config) true.
Proof.
  rewrite refreshConfig_run. unfold refreshed. simpl. eauto 6.
Qed.

Opaque refreshed.

Lemma unlink_if_exists f w :
  (if existsSync f w then unlinkSync f w else w) = unlinkSync f w.
Proof.
  unfold existsSync. destruct (files w !! f) eqn:Hf; [reflexivity|].
  destruct w as [fs ns ws]. unfold unlinkSync. simpl in *.
  now rewrite delete_id.
Qed.

Lemma unlink_step f st w :
  (if existsSync f w then putW (unlinkSync f w) else ret tt) st w
  = Ok tt st (unlinkSync f w).
Proof.
  pose proof (unlink_if_exists f w) as H.
  destruct (existsSync f w); [reflexivity|].
  unfold ret. now rewrite <- H.
Qed.

Lemma locateProjects_start_ok st w :
  exists p st' w', locateProjects_start st w = Ok p st' w'.
Proof.
  rewrite locateProjects_start_cases.
  destruct (baseFolders st) as [bases|]; [|eauto].
  destruct (Z.of_nat (length bases) =? 0); [eauto|].
  destruct (useCachedProjects st); [|eauto].
  destruct (files w !! getCacheFile w) as [[d|]|]; eauto.
  destruct (alreadyLocated st); eauto.
Qed.

(** The synchronous part of [locateProjects] when there is nothing to
    load and nothing located. *)
Lemma locateProjects_start_fresh st w :
  files w !! getCacheFile w = None ->
  isAlreadyLocated st = false ->
  locateProjects_start st w =
    match baseFolders st with
    | None => Ok (Rejected TypeError) st w
    | Some bases =>
        if Z.of_nat (length bases) =? 0 then Ok (Resolved []) st w
        else Ok (Pending (existingRoots bases w)) (set_dirList [] st)
                (withWalkers (existingRoots bases w) w)
    end.
Proof.
  intros Hf Hl. rewrite locateProjects_start_cases, Hf.
  unfold isAlreadyLocated in Hl.
  destruct (baseFolders st) as [bases|]; [|reflexivity].
  destruct (Z.of_nat (length bases) =? 0); [reflexivity|].
  destruct (useCachedProjects st); [|reflexivity].
  simpl in Hl. now rewrite Hl.
Qed.

(** The synchronous part of [locateProjects] creates no file. *)
Lemma locateProjects_start_absent st w f :
  files w !! f = None ->
  files (worldOf (locateProjects_start st w)) !! f = None.
Proof.
  intros Hf. rewrite locateProjects_start_cases.
  destruct (baseFolders st) as [bases|]; [|exact Hf].
  destruct (Z.of_nat (length bases) =? 0); [exact Hf|].
  destruct (useCachedProjects st); [|exact Hf].
  destruct (files w !! getCacheFile w) as [[d|]|] eqn:Hc;
    [| exact Hf | destruct (alreadyLocated st); exact Hf].
  simpl. rewrite lookup_insert_ne; [exact Hf|]. congruence.
Qed.

(** [refreshProjects], up to its call of [locateProjects]. *)
Lemma refreshProjects_run config st w :
  exists changed,
    refreshConfig config st w = Ok changed (refreshed config st) w
    /\ let st2 := set_dirList [] (refreshed config st) in
       let w1 := unlinkSync (getCacheFile w) w in
       let st3 := if useCachedProjects st2
                  then set_alreadyLocated false st2 else st2 in
       refreshProjects config st w =
         Ok changed (stateOf (locateProjects_start st3 w1))
            (worldOf (locateProjects_start st3 w1)).
Proof.
  destruct (refreshConfig_ok config st w) as [changed (Hrun & _)].
  exists changed. split; [exact Hrun|]. intros st2 w1 st3.
  unfold refreshProjects, clearDirList, bind, getSt, getW, putSt.
  rewrite Hrun. fold st2. rewrite unlink_step. fold w1.
  assert (Hset : setAlreadyLocated false st2 w1 = Ok tt st3 w1).
  { unfold st3. destruct (useCachedProjects st2) eqn:Hc.
    - now apply setAlreadyLocated_false.
    - now apply setAlreadyLocated_disabled. }
  rewrite Hset.
  destruct (locateProjects_start_ok st3 w1) as (p & st4 & w2 & Hs).
  now rewrite Hs.
Qed.

(** Without a second cache, nothing is left where [getCacheFile] looks
    once the cache file has been removed. *)
Lemma no_cache_after_unlink w :
  twoCaches w = false ->
  let w1 := unlinkSync (getCacheFile w) w in
  files w1 !! getCacheFile w1 = None.
Proof.
  unfold twoCaches. intros Htwo. cbv zeta.
  rewrite !getCacheFile_cases.
  destruct (String.eqb platform "linux") eqn:Hlinux; simpl in *.
  - destruct (existsSync primaryCacheFile w) eqn:Hp; simpl in *.
    + unfold existsSync at 1. simpl. rewrite lookup_delete_eq. simpl.
      destruct (String.eqb_spec primaryCacheFile fallbackCacheFile)
        as [Heq|Hne]; simpl in *.
      * rewrite <- Heq. apply lookup_delete_eq.
      * rewrite lookup_delete_ne by exact Hne.
        rewrite andb_true_r in Htwo. unfold existsSync in Htwo.
        now destruct (files w !! fallbackCacheFile).
    + assert (Hp' : existsSync primaryCacheFile
                      (unlinkSync fallbackCacheFile w) = false).
      { unfold existsSync in *. simpl.
        destruct (String.eqb_spec fallbackCacheFile primaryCacheFile)
          as [Heq|Hne].
        - rewrite Heq. now rewrite lookup_delete_eq.
        - now rewrite lookup_delete_ne. }
      rewrite Hp'. simpl. apply lookup_delete_eq.
  - apply lookup_delete_eq.
Qed.

(** The fields after the [clearDirList] and [setAlreadyLocated(false)]
    of [refreshProjects]. *)
Lemma reset_fields s :
  let s2 := set_dirList [] s in
  let s3 := if useCachedProjects s then set_alreadyLocated false s2
            else s2 in
  baseFolders s3 = baseFolders s
  /\ useCachedProjects s3 = useCachedProjects s
  /\ dirList s3 = []
  /\ alreadyLocated s3
      = (if useCachedProjects s then false else alreadyLocated s).
Proof. simpl. destruct (useCachedProjects s) eqn:E; simpl; auto. Qed.

(** C9: with caching disabled [setAlreadyLocated(b)] does nothing, for
    either [b]: the flag keeps its value and no file is written.  So the
    [setAlreadyLocated(false)] of [refreshProjects] leaves the flag as it
    was when the configuration being applied disables caching; nothing is
    written either, the disk only loses the cache file. *)
Theorem C9_setAlreadyLocated_noop_when_caching_disabled :
  (forall al st w,
      useCachedProjects st = false ->
      setAlreadyLocated al st w = Ok tt st w)
  /\ forall config st w,
      config_get (cfg_cacheProjectsBetweenSessions config) true = false ->
      exists changed st' w',
        refreshProjects config st w = Ok changed st' w'
        /\ useCachedProjects st' = false
        /\ alreadyLocated st' = alreadyLocated st
        /\ files w' = delete (getCacheFile w) (files w).
Proof.
  split; [exact setAlreadyLocated_disabled|].
  intros config st w Hoff.
  destruct (refreshProjects_run config st w) as [changed (_ & Hrun)].
  destruct (refreshConfig_ok config st w)
    as [changed' (_ & _ & Hl & _ & Hc)].
  rewrite Hoff in Hc. simpl in Hrun. rewrite Hc in Hrun.
  eexists. eexists. eexists. split; [exact Hrun|].
  rewrite locateProjects_start_cases. simpl. rewrite Hc.
  destruct (baseFolders (refreshed config st)) as [bases|];
    [destruct (Z.of_nat (length bases) =? 0)|]; simpl; auto.
Qed.

(** C5 (as amended): whatever the cache-enabled setting was,
    [refreshProjects()] returns exactly what its [refreshConfig] returns
    and removes the cache file [getCacheFile()] designates.  Unless a
    second cache file sits at the other place [getCacheFile] looks in,
    nothing else changes on disk, the list in memory is empty and
    [isAlreadyLocated()] is false when it returns: the [alreadyLocated]
    field is cleared when caching is enabled after the refresh and keeps
    its value otherwise.  With base folders configured, the
    [locateProjects()] it calls has started a walker on every existing
    base folder; in the state at its return, that scan not yet settled, a
    further [locateProjects()] finds no cache either and starts its
    walkers as well.  What later calls do once that scan has settled is
    not part of this statement. *)
Theorem C5_refreshProjects_forces_rescan config st w :
  exists changed refreshedSt st' w',
    refreshConfig config st w = Ok changed refreshedSt w
    /\ refreshProjects config st w = Ok changed st' w'
    /\ files w' !! getCacheFile w = None
    /\ (twoCaches w = false ->
        files w' = delete (getCacheFile w) (files w)
        /\ dirList st' = []
        /\ alreadyLocated st'
           = (if useCachedProjects st' then false else alreadyLocated st)
        /\ isAlreadyLocated st' = false
        /\ forall b bases,
            cfg_baseFolders config = Some (b :: bases) ->
            let roots := existingRoots (b :: bases) w in
            walkers w' = walkers w ++ roots
            /\ locateProjects_start st' w'
               = Ok (Pending roots) st' (withWalkers roots w')).
Proof.
  destruct (refreshProjects_run config st w) as [changed (Hcfg & Hrun)].
  destruct (refreshConfig_ok config st w)
    as [changed' (_ & _ & Hl & Hb & Hc)].
  cbv zeta in Hrun.
  destruct (reset_fields (refreshed config st)) as (Hb3 & Hc3 & Hd3 & Hl3).
  cbv zeta in Hb3, Hc3, Hd3, Hl3.
  change (useCachedProjects (set_dirList [] (refreshed config st)))
    with (useCachedProjects (refreshed config st)) in Hrun.
  remember (if useCachedProjects (refreshed config st)
            then set_alreadyLocated false (set_dirList [] (refreshed config st))
            else set_dirList [] (refreshed config st)) as st3 eqn:Hst3.
  remember (unlinkSync (getCacheFile w) w) as w1 eqn:Hw1.
  assert (Hgone : files w1 !! getCacheFile w = None)
    by (subst w1; apply lookup_delete_eq).
  assert (Hfiles : files w1 = delete (getCacheFile w) (files w))
    by now subst w1.
  assert (Hnodes : nodes w1 = nodes w) by now subst w1.
  assert (Hwalkers : walkers w1 = walkers w) by now subst w1.
  assert (Hloc3 : isAlreadyLocated st3 = false).
  { unfold isAlreadyLocated. rewrite Hc3, Hl3.
    now destruct (useCachedProjects (refreshed config st)). }
  exists changed, (refreshed config st),
    (stateOf (locateProjects_start st3 w1)),
    (worldOf (locateProjects_start st3 w1)).
  split; [exact Hcfg|]. split; [exact Hrun|]. split.
  - now apply locateProjects_start_absent.
  - intros Htwo.
    assert (Hnone : files w1 !! getCacheFile w1 = None)
      by (subst w1; exact (no_cache_after_unlink w Htwo)).
    rewrite (locateProjects_start_fresh st3 w1 Hnone Hloc3).
    rewrite Hb3, Hb.
    destruct (cfg_baseFolders config) as [[|b0 bases0]|] eqn:Hcb.
    + simpl. rewrite Hc3, Hl3, Hd3, Hl.
      do 4 (split; [auto|]). intros b bases Habs. discriminate.
    + change (Z.of_nat (length (b0 :: bases0)) =? 0) with false.
      cbv iota. unfold stateOf, worldOf.
      change (files (withWalkers (existingRoots (b0 :: bases0) w1) w1))
        with (files w1).
      change (useCachedProjects (set_dirList [] st3))
        with (useCachedProjects st3).
      change (alreadyLocated (set_dirList [] st3))
        with (alreadyLocated st3).
      change (isAlreadyLocated (set_dirList [] st3))
        with (isAlreadyLocated st3).
      change (dirList (set_dirList [] st3)) with (@nil DirInfo).
      rewrite Hc3, Hl3, Hl.
      assert (Hroots : existingRoots (b0 :: bases0) w1
                       = existingRoots (b0 :: bases0) w)
        by (unfold existingRoots, dirExistsSync; now rewrite Hnodes).
      do 4 (split; [auto|]). intros b bases [= <- <-]. split.
      * simpl. now rewrite Hroots, Hwalkers.
      * rewrite Hroots.
        set (roots := existingRoots (b0 :: bases0) w).
        rewrite (locateProjects_start_fresh (set_dirList [] st3)
                   (withWalkers roots w1) Hnone Hloc3).
        simpl. rewrite Hb3, Hb.
        change (Z.of_nat (length (b0 :: bases0)) =? 0) with false.
        cbv iota. fold roots in Hroots.
        change (existingRoots (b0 :: bases0) (withWalkers roots w1))
          with (existingRoots (b0 :: bases0) w1).
        now rewrite Hroots.
    + simpl. rewrite Hc3, Hl3, Hd3, Hl.
      do 4 (split; [auto|]). intros b bases Habs. discriminate.
Qed.

Transparent refreshed.

End RefreshProjects.

(** Nothing changed in the configuration, yet [refreshConfig] reports a
    change: the ignored folders are not the base folders. *)
Example unchanged_configuration_reported_changed :
  let st := Fixture.locator ["/srv"] ["node_modules"] (-1) true false [] in
  let config := Fixture.hostConfig ["/srv"] ["node_modules"] (-1) true in
  refreshConfig config st Fixture.emptyDisk = Ok true st Fixture.emptyDisk.
Proof. reflexivity. Qed.

(** New ignored folders that happen to be the base folders are neither
    reported nor stored. *)
Example changed_ignoredFolders_missed :
  let st := Fixture.locator ["node_modules"] [] (-1) true false [] in
  let config :=
    Fixture.hostConfig ["node_modules"] ["node_modules"] (-1) true in
  refreshConfig config st Fixture.emptyDisk = Ok false st Fixture.emptyDisk.
Proof. reflexivity. Qed.

Lemma C10_missing_array_never_equal_witness :
  let config := {| cfg_baseFolders := None;
                   cfg_ignoredFolders := None;
                   cfg_maxDepthRecursion := None;
                   cfg_cacheProjectsBetweenSessions := None |} in
  let st := {| dirList := []; maxDepth := -1; ignoredFolders := [];
               useCachedProjects := true; alreadyLocated := false;
               baseFolders := None |} in
  cfg_baseFolders config = None
  /\ arraysAreEquals (baseFolders st) (cfg_baseFolders config) = false
  /\ exists st',
      refreshConfig config st Fixture.emptyDisk = Ok true st' Fixture.emptyDisk
      /\ baseFolders st' = None.
Proof.
  intros config st.
  assert (Hnone : cfg_baseFolders config = None) by reflexivity.
  split; [exact Hnone|].
  split; [exact (proj1 (proj1 C10_missing_array_never_equal None))|].
  exact (proj2 C10_missing_array_never_equal config st Fixture.emptyDisk Hnone).
Defined.

Lemma C9_setAlreadyLocated_noop_when_caching_disabled_witness :
  let off := Fixture.locator ["/srv"] [] (-1) false true [] in
  let st := Fixture.locator ["/srv"] [] (-1) true true [Fixture.projA] in
  let config := Fixture.hostConfig ["/srv"] [] (-1) false in
  let w := Fixture.cachedDisk (JsonText [Fixture.projA]) in
  useCachedProjects off = false
  /\ setAlreadyLocated true off w = Ok tt off w
  /\ setAlreadyLocated false off w = Ok tt off w
  /\ config_get (cfg_cacheProjectsBetweenSessions config) true = false
  /\ exists changed st' w',
      refreshProjects config st w = Ok changed st' w'
      /\ useCachedProjects st' = false
      /\ alreadyLocated st' = alreadyLocated st
      /\ files w' = delete (getCacheFile w) (files w).
Proof.
  intros off st config w.
  destruct C9_setAlreadyLocated_noop_when_caching_disabled as [Hset Hrefresh].
  assert (Hoff : useCachedProjects off = false) by reflexivity.
  assert (Hcfg : config_get (cfg_cacheProjectsBetweenSessions config) true
                 = false) by reflexivity.
  split; [exact Hoff|].
  split; [exact (Hset true off w Hoff)|].
  split; [exact (Hset false off w Hoff)|].
  split; [exact Hcfg|].
  exact (Hrefresh config st w Hcfg).
Defined.

Lemma C5_refreshProjects_forces_rescan_witness :
  let st := Fixture.locator ["/home/u/work"] ["node_modules"] 2 true true
              [Fixture.projA] in
  let config := Fixture.hostConfig ["/home/u/work"] ["node_modules"] 2 true in
  let w := Fixture.cachedDisk (JsonText [Fixture.projA]) in
  let roots := ["/home/u/work"] in
  twoCaches w = false
  /\ cfg_baseFolders config = Some ["/home/u/work"]
  /\ exists changed st' w',
      refreshProjects config st w = Ok changed st' w'
      /\ files w' !! getCacheFile w = None
      /\ files w' = delete (getCacheFile w) (files w)
      /\ dirList st' = []
      /\ isAlreadyLocated st' = false
      /\ walkers w' = walkers w ++ roots
      /\ locateProjects_start st' w'
         = Ok (Pending roots) st' (withWalkers roots w').
Proof.
  intros st config w roots.
  assert (Htwo : twoCaches w = false) by (vm_compute; reflexivity).
  assert (Hbase : cfg_baseFolders config = Some ["/home/u/work"])
    by reflexivity.
  split; [exact Htwo|]. split; [exact Hbase|].
  destruct (C5_refreshProjects_forces_rescan config st w)
    as (changed & refreshedSt & st' & w' & _ & Hrun & Hgone & Hrest).
  destruct (Hrest Htwo) as (Hfiles & Hlist & _ & Hloc & Hnext).
  destruct (Hnext _ _ Hbase) as [Hwalk Hstart].
  exists changed, st', w'.
  split; [exact Hrun|]. split; [exact Hgone|]. split; [exact Hfiles|].
  split; [exact Hlist|]. split; [exact Hloc|].
  split; [exact Hwalk | exact Hstart].
Defined.

(** Counterexample to C5 as the specification words it (the located flag
    is reset and the next [locateProjects] rescans, in every state).  When
    the configuration being applied disables caching, the [alreadyLocated]
    field is still set after [refreshProjects].  And on Linux with a cache
    file at both places, [refreshProjects] removes the first only: its
    [locateProjects] loads the second and starts no walker, and so does
    the next [locateProjects]. *)
Lemma C5_flag_kept_and_second_cache_used :
  (let st := Fixture.locator ["/srv"] [] (-1) true true [Fixture.projA] in
   let config := Fixture.hostConfig ["/srv"] [] (-1) false in
   let r := refreshProjects config st Fixture.emptyDisk in
   alreadyLocated st = true
   /\ exists changed, r = Ok changed (stateOf r) (worldOf r)
   /\ alreadyLocated (stateOf r) = true)
  /\ (let st := Fixture.locator ["/home/u/work"] [] (-1) true true
                  [Fixture.projA] in
      let config := Fixture.hostConfig ["/home/u/work"] [] (-1) true in
      let w := Fixture.twoCacheDisk in
      let r := refreshProjects config st w in
      existsSync (getCacheFile w) w = true
      /\ (exists changed, r = Ok changed (stateOf r) (worldOf r))
      /\ files (worldOf r) !! getCacheFile w = None
      /\ dirList (stateOf r) = [Fixture.staleProj]
      /\ isAlreadyLocated (stateOf r) = true
      /\ walkers (worldOf r) = []
      /\ locateProjects (stateOf r) (worldOf r)
         = Ok (Resolved [Fixture.staleProj]) (stateOf r) (worldOf r)).
Proof.
  split.
  - split; [reflexivity|]. exists true. split; vm_compute; reflexivity.
  - split; [vm_compute; reflexivity|].
    split; [exists true; vm_compute; reflexivity|].
    repeat split; vm_compute; reflexivity.
Qed.

(** * Further properties of the locator *)

(** ** Comparison of arrays and refresh of the configuration *)

Section MoreRefresh.

Context {hooks : LocatorHooks} {putils : PathUtils} {host : Host}.

(** X1: on two arrays [arraysAreEquals] decides element-wise equality, and
    in every case the order of its arguments does not matter. *)
Theorem X1_arraysAreEquals_decides_equality :
  (forall a b, arraysAreEquals (Some a) (Some b) = true <-> a = b)
  /\ forall x y, arraysAreEquals x y = arraysAreEquals y x.
Proof.
  split; [exact arraysAreEquals_eq|].
  intros [a|] [b|]; try reflexivity.
  apply eq_true_iff_eq.
  split; intros H; apply arraysAreEquals_eq in H; apply arraysAreEquals_eq;
    congruence.
Qed.

(** X2: [refreshConfig] leaves [dirList], [alreadyLocated] and the world
    alone and stores what the host holds for the base folders, the depth
    and the cache setting (defaults [-1] and [true]).  When it returns
    false it has stored nothing: the locator is as it was. *)
Theorem X2_refreshConfig_stores_configuration config st w changed st1 w1 :
  refreshConfig config st w = Ok changed st1 w1 ->
  w1 = w
  /\ dirList st1 = dirList st
  /\ alreadyLocated st1 = alreadyLocated st
  /\ baseFolders st1 = cfg_baseFolders config
  /\ maxDepth st1 = config_get (cfg_maxDepthRecursion config) (-1)
  /\ useCachedProjects st1
     = config_get (cfg_cacheProjectsBetweenSessions config) true
  /\ (changed = false -> st1 = st).
Proof.
  rewrite refreshConfig_run. intros [= <- <- <-].
  do 6 (split; [reflexivity|]).
  intros Hfalse.
  apply orb_false_iff in Hfalse as [Hfalse Hcache].
  apply orb_false_iff in Hfalse as [Hfalse Hdepth].
  apply orb_false_iff in Hfalse as [Hbase Hignored].
  apply negb_false_iff in Hcache, Hdepth, Hbase.
  apply arraysAreEquals_true in Hbase. apply Z.eqb_eq in Hdepth.
  apply Bool.eqb_prop in Hcache.
  unfold refreshed. rewrite Hignored, <- Hbase, <- Hdepth, <- Hcache.
  now destruct st.
Qed.

(** X3: refreshing twice from the same configuration stores nothing new
    the second time, yet the second call still reports a change unless the
    value read for the ignored folders is, element-wise, the value read
    for the base folders. *)
Theorem X3_refreshConfig_again config st w changed st1 w1 :
  refreshConfig config st w = Ok changed st1 w1 ->
  exists again,
    refreshConfig config st1 w1 = Ok again st1 w1
    /\ (again = false
        <-> cfg_baseFolders config
            = Some (config_get (cfg_ignoredFolders config) [])).
Proof.
  rewrite refreshConfig_run. intros [= <- <- <-].
  rewrite refreshConfig_run.
  set (newBase := cfg_baseFolders config).
  set (newIgnored := config_get (cfg_ignoredFolders config) []).
  eexists. split.
  - f_equal. unfold refreshed. fold newBase newIgnored. simpl.
    now destruct (arraysAreEquals newBase (Some newIgnored)).
  - unfold refreshed. fold newBase newIgnored. simpl.
    rewrite Z.eqb_refl, Bool.eqb_reflx. simpl. rewrite !orb_false_r.
    destruct newBase as [b|].
    + replace (arraysAreEquals (Some b) (Some b)) with true
        by (symmetry; now apply arraysAreEquals_eq).
      simpl. split.
      * intros H. apply negb_false_iff, arraysAreEquals_eq in H. congruence.
      * intros [= ->]. apply negb_false_iff. now apply arraysAreEquals_eq.
    + simpl. split; discriminate.
Qed.

Lemma indexOfFrom_spec x l :
  forall i,
    0 <= i ->
    (indexOfFrom i x l = -1 <-> ~ In x l)
    /\ (indexOfFrom i x l = -1 \/ i <= indexOfFrom i x l).
Proof.
  induction l as [|y l IH]; intros i Hi; simpl.
  - split; [tauto | now left].
  - destruct (String.eqb_spec y x) as [->|Hne].
    + split; [|right; lia]. split; [lia | tauto].
    + destruct (IH (i + 1) ltac:(lia)) as [Hiff Hrange]. split.
      * rewrite Hiff. tauto.
      * destruct Hrange; [now left | right; lia].
Qed.

(** X4: a folder is ignored exactly when its name is one of the configured
    ignored folders, letter for letter. *)
Theorem X4_isFolderIgnored_membership st folder :
  isFolderIgnored st folder = true <-> In folder (ignoredFolders st).
Proof.
  unfold isFolderIgnored, indexOf. rewrite negb_true_iff, Z.eqb_neq.
  destruct (indexOfFrom_spec folder (ignoredFolders st) 0 ltac:(lia))
    as [Hiff _].
  rewrite Hiff. split.
  - intros Hnn. destruct (in_dec string_dec folder (ignoredFolders st));
      [assumption | contradiction].
  - tauto.
Qed.

Lemma split_not_nil s : Path.split s <> [].
Proof.
  destruct s as [|c s]; simpl; [discriminate|].
  destruct (Ascii.eqb c Path.sep); [discriminate|].
  destruct (Path.split s); discriminate.
Qed.

Lemma split_append a b :
  Path.split (a +:+ String Path.sep b) = Path.split a ++ Path.split b.
Proof.
  induction a as [|c a IH]; [reflexivity|].
  simpl. revert IH.
  generalize (Path.split (a +:+ String Path.sep b)). intros l ->.
  destruct (Ascii.eqb c Path.sep); [reflexivity|].
  pose proof (split_not_nil a) as Hne.
  destruct (Path.split a); [contradiction | reflexivity].
Qed.

Lemma getPathDepth_append a b :
  getPathDepth (a +:+ "/" +:+ b) = getPathDepth a + getPathDepth b.
Proof.
  unfold getPathDepth.
  change (a +:+ "/" +:+ b) with (a +:+ String Path.sep b).
  rewrite split_append, length_app. lia.
Qed.

(** X5: [getPathDepth] is at least 1 and adds up over a separator: the
    depth of [a/b] is the depth of [a] plus the depth of [b].  A trailing
    separator therefore counts as one more level. *)
Theorem X5_getPathDepth_counts_separators :
  (forall s, 1 <= getPathDepth s)
  /\ (forall a b,
         getPathDepth (a +:+ "/" +:+ b) = getPathDepth a + getPathDepth b)
  /\ forall s, getPathDepth (s +:+ "/") = getPathDepth s + 1.
Proof.
  split; [|split; [exact getPathDepth_append|]].
  - intros s. unfold getPathDepth. pose proof (split_not_nil s).
    destruct (Path.split s); [contradiction | simpl; lia].
  - intros s. exact (getPathDepth_append s EmptyString).
Qed.

(** X19: a base folder written with a trailing separator is scanned one
    level deeper.  With a positive [maxDepth], measuring against the
    depth of [s/] prunes exactly what measuring against the depth of [s]
    prunes under [maxDepth + 1]. *)
Theorem X19_trailing_separator_widens_depth st s currentDepth :
  0 < maxDepth st ->
  isMaxDeptReached st currentDepth (getPathDepth (s +:+ "/"))
  = isMaxDeptReached (set_maxDepth (maxDepth st + 1) st) currentDepth
      (getPathDepth s).
Proof.
  intros Hpos. unfold isMaxDeptReached. simpl.
  pose proof (getPathDepth_append s EmptyString) as Hd.
  change (s +:+ "/" +:+ EmptyString) with (s +:+ "/") in Hd.
  change (getPathDepth EmptyString) with 1 in Hd. rewrite Hd.
  replace (0 <? maxDepth st) with true by (symmetry; now apply Z.ltb_lt).
  replace (0 <? maxDepth st + 1) with true
    by (symmetry; apply Z.ltb_lt; lia).
  simpl.
  destruct (Z.ltb_spec (maxDepth st) (currentDepth - (getPathDepth s + 1)));
    destruct (Z.ltb_spec (maxDepth st + 1) (currentDepth - getPathDepth s));
    (reflexivity || lia).
Qed.

(** X20: a new locator has an empty list and is not located, whatever the
    host holds; it has the base folders, depth and cache setting of the
    host.  Its ignored folders are those of the host unless they are,
    element-wise, its base folders: then the list stays empty.  The
    constructor's [refreshConfig] reports no change only for the values
    the fields start with. *)
Theorem X20_new_locator config w :
  let newIgnored := config_get (cfg_ignoredFolders config) [] in
  exists changed st,
    constructor config w = Ok changed st w
    /\ dirList st = []
    /\ isAlreadyLocated st = false
    /\ baseFolders st = cfg_baseFolders config
    /\ maxDepth st = config_get (cfg_maxDepthRecursion config) (-1)
    /\ useCachedProjects st
       = config_get (cfg_cacheProjectsBetweenSessions config) true
    /\ ignoredFolders st
       = (if arraysAreEquals (cfg_baseFolders config) (Some newIgnored)
          then [] else newIgnored)
    /\ (changed = false
        <-> cfg_baseFolders config = Some []
            /\ newIgnored = []
            /\ config_get (cfg_maxDepthRecursion config) (-1) = -1
            /\ config_get (cfg_cacheProjectsBetweenSessions config) true
               = true).
Proof.
  intros newIgnored. unfold constructor. rewrite refreshConfig_run.
  eexists. exists (refreshed config newLocator). split; [reflexivity|].
  split; [reflexivity|]. split; [apply andb_false_r|].
  do 3 (split; [reflexivity|]).
  split.
  { unfold refreshed. cbn [ignoredFolders newLocator]. fold newIgnored.
    now destruct (arraysAreEquals (cfg_baseFolders config)
                    (Some newIgnored)). }
  unfold newLocator. cbn [baseFolders maxDepth useCachedProjects].
  fold newIgnored. split.
  - intros Hfalse.
    apply orb_false_iff in Hfalse as [Hfalse Hcache].
    apply orb_false_iff in Hfalse as [Hfalse Hdepth].
    apply orb_false_iff in Hfalse as [Hbase Hignored].
    apply negb_false_iff in Hcache, Hdepth, Hbase, Hignored.
    apply arraysAreEquals_true in Hbase, Hignored.
    apply Z.eqb_eq in Hdepth. apply Bool.eqb_prop in Hcache.
    repeat split; congruence.
  - intros (Hbase & Hignored & Hdepth & Hcache).
    rewrite Hbase, Hignored, Hdepth, Hcache. reflexivity.
Qed.

End MoreRefresh.

Lemma X2_refreshConfig_stores_configuration_witness :
  let st := Fixture.locator ["/srv"] ["/srv"] 3 false true [Fixture.projA] in
  let config := Fixture.hostConfig ["/srv"] ["/srv"] 3 false in
  refreshConfig config st Fixture.emptyDisk = Ok false st Fixture.emptyDisk
  /\ dirList st = [Fixture.projA]
  /\ baseFolders st = cfg_baseFolders config
  /\ (false = false -> st = st).
Proof.
  intros st config.
  assert (Hrun : refreshConfig config st Fixture.emptyDisk
                 = Ok false st Fixture.emptyDisk) by reflexivity.
  split; [exact Hrun|].
  destruct (X2_refreshConfig_stores_configuration
              config st Fixture.emptyDisk false st Fixture.emptyDisk Hrun)
    as (_ & Hd & _ & Hb & _ & _ & Hst).
  auto.
Defined.

Lemma X3_refreshConfig_again_witness :
  let st := Fixture.locator [] [] (-1) true false [] in
  let config := Fixture.hostConfig ["/srv"] ["node_modules"] 2 true in
  let st1 := Fixture.locator ["/srv"] ["node_modules"] 2 true false [] in
  refreshConfig config st Fixture.emptyDisk = Ok true st1 Fixture.emptyDisk
  /\ exists again,
      refreshConfig config st1 Fixture.emptyDisk
      = Ok again st1 Fixture.emptyDisk
      /\ (again = false
          <-> cfg_baseFolders config
              = Some (config_get (cfg_ignoredFolders config) [])).
Proof.
  intros st config st1.
  assert (Hrun : refreshConfig config st Fixture.emptyDisk
                 = Ok true st1 Fixture.emptyDisk) by reflexivity.
  split; [exact Hrun|].
  exact (X3_refreshConfig_again config st Fixture.emptyDisk true st1
           Fixture.emptyDisk Hrun).
Defined.

(** ** The walk from a base folder *)

Section MoreScan.

Context {hooks : LocatorHooks} {putils : PathUtils} {host : Host}.

Lemma isMaxDeptReached_at_root st depth :
  isMaxDeptReached st depth depth = false.
Proof.
  unfold isMaxDeptReached. rewrite Z.sub_diag.
  destruct (0 <? maxDepth st) eqn:Hpos; [|reflexivity].
  apply Z.ltb_lt in Hpos. simpl. apply Z.ltb_ge. lia.
Qed.

(** X6: the depth limit never prunes a base folder itself.  A base folder
    that is a readable directory is the first directory its walker hands
    to [processDirectory], whatever [maxDepth], unless its own name is
    ignored; in that case its walker reports nothing at all. *)
Theorem X6_base_folder_itself st w root readable entries :
  nodes w root = Some (Dir readable entries) ->
  (isFolderIgnored st (Path.basename root) = true ->
   walkerEvents st w root = [])
  /\ (isFolderIgnored st (Path.basename root) = false ->
      readable = true ->
      exists rest, walkerEvents st w root = EvDir root :: rest).
Proof.
  intros Hn. unfold walkerEvents, walker. rewrite Hn. split.
  - intros Hig. apply go_rejected. unfold filterDir. now rewrite Hig.
  - intros Hig ->. simpl. unfold filterDir at 1.
    rewrite Hig, isMaxDeptReached_at_root. simpl. eauto.
Qed.

(** X7: the scan misses nothing it is allowed to see.  A directory that is
    reached from a started base folder through readable directories the
    filter accepts, and that [isRepoDir] accepts, is in the list the scan
    resolves with, under the name [decideProjectName] gives it. *)
Theorem X7_scan_lists_every_visited_repo st w roots st1 w1 root n trail d :
  locateProjects_start st w = Ok (Pending roots) st1 w1 ->
  In root roots ->
  nodes w root = Some n ->
  Visit (filterDir st (getPathDepth root)) root n trail d ->
  isRepoDir d = true ->
  exists l st2 w2,
    locateProjects st w = Ok (Resolved l) st2 w2
    /\ In {| fullPath := d; name := decideProjectName d |} l.
Proof.
  intros Hs Hroot Hn Hv Hrepo.
  pose proof (locateProjects_scan _ _ _ _ _ Hs) as Hrun. cbv zeta in Hrun.
  assert (Hin : In (toDirInfo d) (discoveries (scanEvents st w roots))).
  { apply discoveries_In. exists d. repeat split; [exact Hrepo|].
    apply in_flat_map. exists root. split; [exact Hroot|].
    unfold walkerEvents, walker. rewrite Hn.
    exact (visit_go_dir _ _ _ _ _ Hv). }
  destruct (useCachedProjects st); eauto.
Qed.

End MoreScan.

Lemma X6_base_folder_itself_witness :
  let shallow := Fixture.locator ["/srv"] [] 1 true false [] in
  let named := Fixture.locator ["/srv"] ["srv"] (-1) true false [] in
  let w := Fixture.emptyDisk in
  nodes w "/srv" = Some Fixture.srvTree
  /\ isFolderIgnored named (Path.basename "/srv") = true
  /\ walkerEvents named w "/srv" = []
  /\ isFolderIgnored shallow (Path.basename "/srv") = false
  /\ exists rest, walkerEvents shallow w "/srv" = EvDir "/srv" :: rest.
Proof.
  intros shallow named w.
  assert (Hn : nodes w "/srv" = Some Fixture.srvTree) by reflexivity.
  assert (Hyes : isFolderIgnored named (Path.basename "/srv") = true)
    by reflexivity.
  assert (Hno : isFolderIgnored shallow (Path.basename "/srv") = false)
    by reflexivity.
  split; [exact Hn|]. split; [exact Hyes|].
  split; [exact (proj1 (X6_base_folder_itself named w "/srv" _ _ Hn) Hyes)|].
  split; [exact Hno|].
  exact (proj2 (X6_base_folder_itself shallow w "/srv" _ _ Hn) Hno eq_refl).
Defined.

Lemma X7_scan_lists_every_visited_repo_witness :
  let st := Fixture.locator ["/srv"] ["node_modules"] (-1) true false [] in
  let w := Fixture.emptyDisk in
  let f := filterDir st (getPathDepth "/srv") in
  locateProjects_start st w
  = Ok (Pending ["/srv"]) (set_dirList [] st) (withWalkers ["/srv"] w)
  /\ Visit f "/srv" Fixture.srvTree ["/srv"] "/srv/proj"
  /\ isRepoDir "/srv/proj" = true
  /\ exists l st2 w2,
      locateProjects st w = Ok (Resolved l) st2 w2
      /\ In {| fullPath := "/srv/proj";
               name := decideProjectName "/srv/proj" |} l.
Proof.
  intros st w f.
  assert (Hs : locateProjects_start st w
               = Ok (Pending ["/srv"]) (set_dirList [] st)
                    (withWalkers ["/srv"] w)) by reflexivity.
  assert (Hv : Visit f "/srv" Fixture.srvTree ["/srv"] "/srv/proj").
  { apply (Visit_below f "/srv" _ "proj" (Fixture.repo []) [] "/srv/proj");
      [reflexivity | left; reflexivity |].
    apply (Visit_here f "/srv/proj"). reflexivity. }
  assert (Hrepo : isRepoDir "/srv/proj" = true) by reflexivity.
  split; [exact Hs|]. split; [exact Hv|]. split; [exact Hrepo|].
  exact (X7_scan_lists_every_visited_repo st w ["/srv"] _ _ "/srv"
           Fixture.srvTree ["/srv"] "/srv/proj" Hs
           (or_introl eq_refl) eq_refl Hv Hrepo).
Defined.

(** ** The cache, once more *)

Section MoreCache.

Context {hooks : LocatorHooks} {putils : PathUtils} {host : Host}.

Lemma getCacheFile_files w w' :
  files w' = files w -> getCacheFile w' = getCacheFile w.
Proof.
  intros Hf. rewrite !getCacheFile_cases. unfold existsSync. now rewrite Hf.
Qed.

(** A located locator whose cache on disk is its own list loads nothing
    new. *)
Lemma initializeCfg_coherent kind st w :
  isAlreadyLocated st = true ->
  cacheCoherent st w ->
  initializeCfg kind st w = Ok tt st w.
Proof.
  unfold isAlreadyLocated, cacheCoherent. intros Hloc Hcoh.
  apply andb_true_iff in Hloc as [Hc Hl].
  rewrite initializeCfg_cases, Hc.
  destruct (files w !! getCacheFile w) as [t|] eqn:Hf; [|reflexivity].
  subst t. unfold JSON_stringify in *.
  rewrite (writeFileSync_same _ _ _ Hf).
  destruct st; simpl in *; now subst.
Qed.

(** X8: what [setAlreadyLocated(true)] persists is what [initializeCfg]
    loads.  With caching enabled the list in memory is written to the file
    [getCacheFile] designates; any locator with caching enabled that then
    initialises from this disk, a new session for instance, gets that list
    and is located, and the disk is left as it is. *)
Theorem X8_persisted_list_is_loaded_back st w :
  useCachedProjects st = true ->
  exists st1 w1,
    setAlreadyLocated true st w = Ok tt st1 w1
    /\ files w1 !! getCacheFile w1 = Some (JSON_stringify (dirList st))
    /\ forall kind other,
        useCachedProjects other = true ->
        exists st2,
          initializeCfg kind other w1 = Ok tt st2 w1
          /\ dirList st2 = dirList st
          /\ isAlreadyLocated st2 = true.
Proof.
  intros Hc. rewrite (setAlreadyLocated_true st w Hc).
  set (t := JSON_stringify (dirList st)).
  set (w1 := writeFileSync (getCacheFile w) t w).
  assert (Hcf : getCacheFile w1 = getCacheFile w)
    by exact (getCacheFile_write t w).
  assert (Hlook : files w1 !! getCacheFile w1 = Some t)
    by (rewrite Hcf; simpl; apply lookup_insert_eq).
  exists (set_alreadyLocated true st), w1.
  split; [reflexivity|]. split; [exact Hlook|].
  intros kind other Hco.
  exists (set_alreadyLocated true (set_dirList (dirList st) other)).
  rewrite (initializeCfg_cache kind other w1 (dirList st) Hco Hlook).
  rewrite (writeFileSync_same (getCacheFile w1) (JsonText (dirList st)) w1
             Hlook).
  split; [reflexivity|]. split; [reflexivity|].
  unfold isAlreadyLocated. simpl. now rewrite Hco.
Qed.

(** X9: [initializeCfg] is idempotent: once it has returned, calling it
    again, with whatever argument, changes neither the locator nor the
    disk. *)
Theorem X9_initializeCfg_idempotent kind st w st1 w1 :
  initializeCfg kind st w = Ok tt st1 w1 ->
  forall kind', initializeCfg kind' st1 w1 = Ok tt st1 w1.
Proof.
  rewrite initializeCfg_cases. intros Hinit kind'.
  destruct (useCachedProjects st) eqn:Hc.
  - destruct (files w !! getCacheFile w) as [[d|]|] eqn:Hf;
      [| discriminate |].
    + injection Hinit as <- <-.
      rewrite (writeFileSync_same _ _ _ Hf).
      rewrite initializeCfg_cases. simpl. rewrite Hc, Hf.
      now rewrite (writeFileSync_same _ _ _ Hf).
    + injection Hinit as <- <-. rewrite initializeCfg_cases.
      now rewrite Hc, Hf.
  - injection Hinit as <- <-. rewrite initializeCfg_cases. simpl.
    now rewrite Hc.
Qed.

End MoreCache.

Section MoreLocate.

Context {hooks : LocatorHooks} {putils : PathUtils} {host : Host}.

(** X11: base folders that do not exist.  Take a locator that is not
    located and has no cache file to load, with base folders configured of
    which none exists.  [locateProjects] resolves with the empty list and
    starts no walker.  With caching enabled the empty list is then in the
    cache file and the locator is located: later calls answer the empty
    list from the cache, without a walk, whatever directories have
    appeared in the meantime. *)
Theorem X11_no_base_folder_exists st w b bases :
  baseFolders st = Some (b :: bases) ->
  existingRoots (b :: bases) w = [] ->
  isAlreadyLocated st = false ->
  (useCachedProjects st = true -> files w !! getCacheFile w = None) ->
  exists st1 w1,
    locateProjects st w = Ok (Resolved []) st1 w1
    /\ walkers w1 = walkers w
    /\ (useCachedProjects st = true ->
        files w1 !! getCacheFile w1 = Some (JSON_stringify [])
        /\ forall w2,
            files w2 = files w1 ->
            exists w3,
              locateProjects st1 w2 = Ok (Resolved []) st1 w3
              /\ walkers w3 = walkers w2).
Proof.
  intros Hb Hroots Hloc Hnone.
  assert (Hs : locateProjects_start st w
               = Ok (Pending []) (set_dirList [] st) (withWalkers [] w)).
  { rewrite locateProjects_start_cases, Hb.
    change (Z.of_nat (length (b :: bases)) =? 0) with false. cbv iota.
    rewrite Hroots. unfold isAlreadyLocated in Hloc.
    destruct (useCachedProjects st); [|reflexivity].
    rewrite (Hnone eq_refl). simpl in Hloc. now rewrite Hloc. }
  pose proof (locateProjects_scan _ _ _ _ _ Hs) as Hrun. cbv zeta in Hrun.
  change (discoveries (scanEvents st w [])) with (@nil DirInfo) in Hrun.
  rewrite withWalkers_nil in Hrun.
  destruct (useCachedProjects st) eqn:Hc.
  - set (t := JSON_stringify []) in *.
    set (w1 := writeFileSync (getCacheFile w) t w) in *.
    assert (Hcf : getCacheFile w1 = getCacheFile w)
      by exact (getCacheFile_write t w).
    assert (Hlook : files w1 !! getCacheFile w1 = Some t)
      by (rewrite Hcf; simpl; apply lookup_insert_eq).
    exists (set_alreadyLocated true (set_dirList [] st)), w1.
    split; [exact Hrun|]. split; [reflexivity|]. intros _.
    split; [exact Hlook|]. intros w2 Hfiles.
    assert (Hlook2 : files w2 !! getCacheFile w2 = Some (JsonText []))
      by (rewrite (getCacheFile_files w1 w2 Hfiles), Hfiles; exact Hlook).
    exists w2. unfold locateProjects. unfold bind.
    rewrite locateProjects_start_cases. simpl. rewrite Hb, Hc, Hlook2.
    change (Z.of_nat (length (b :: bases)) =? 0) with false. cbv iota.
    rewrite (writeFileSync_same _ _ _ Hlook2). split; reflexivity.
  - exists (set_dirList [] st), w.
    split; [exact Hrun|]. split; [reflexivity|]. discriminate.
Qed.

(** X12: without caching every call walks.  With caching disabled and
    base folders configured, a call starts a walker on each existing base
    folder and resolves with the discoveries; so does the next call, and
    when nothing changed on disk its list has the same entries, each as
    many times, in some order.  The located flag is not touched. *)
Theorem X12_without_cache_every_call_walks st w b bases :
  useCachedProjects st = false ->
  baseFolders st = Some (b :: bases) ->
  let roots := existingRoots (b :: bases) w in
  exists l1 st1 w1 l2 st2 w2,
    locateProjects st w = Ok (Resolved l1) st1 w1
    /\ walkers w1 = walkers w ++ roots
    /\ alreadyLocated st1 = alreadyLocated st
    /\ locateProjects st1 w1 = Ok (Resolved l2) st2 w2
    /\ walkers w2 = walkers w1 ++ roots
    /\ alreadyLocated st2 = alreadyLocated st
    /\ Permutation l1 l2.
Proof.
  intros Hc Hb roots.
  assert (Hstart : forall s v,
             useCachedProjects s = false ->
             baseFolders s = Some (b :: bases) ->
             locateProjects_start s v
             = Ok (Pending (existingRoots (b :: bases) v)) (set_dirList [] s)
                  (withWalkers (existingRoots (b :: bases) v) v)).
  { intros s v Hcs Hbs. rewrite locateProjects_start_cases, Hbs, Hcs.
    reflexivity. }
  pose proof (locateProjects_scan _ _ _ _ _ (Hstart st w Hc Hb)) as Hrun.
  cbv zeta in Hrun. rewrite Hc in Hrun. fold roots in Hrun.
  set (l := discoveries (scanEvents st w roots)) in *.
  pose proof (locateProjects_scan _ _ _ _ _
                (Hstart (set_dirList l st) (withWalkers roots w) Hc Hb))
    as Hrun2.
  cbv zeta in Hrun2.
  change (useCachedProjects (set_dirList l st)) with (useCachedProjects st)
    in Hrun2.
  rewrite Hc in Hrun2.
  exists l, (set_dirList l st), (withWalkers roots w),
    l, (set_dirList l st), (withWalkers roots (withWalkers roots w)).
  split; [exact Hrun|]. split; [reflexivity|]. split; [reflexivity|].
  split; [exact Hrun2|]. split; [reflexivity|]. split; [reflexivity|].
  apply Permutation_refl.
Qed.

(** What a resolved call leaves behind when caching is enabled. *)
Lemma locateProjects_resolved_state st w b bases l st1 w1 :
  useCachedProjects st = true ->
  baseFolders st = Some (b :: bases) ->
  locateProjects st w = Ok (Resolved l) st1 w1 ->
  dirList st1 = l /\ isAlreadyLocated st1 = true /\ cacheCoherent st1 w1.
Proof.
  intros Hc Hb. unfold locateProjects. unfold bind at 1.
  rewrite locateProjects_start_cases, Hb, Hc.
  change (Z.of_nat (length (b :: bases)) =? 0) with false. cbv iota.
  unfold isAlreadyLocated, cacheCoherent.
  destruct (files w !! getCacheFile w) as [[d|]|] eqn:Hf; [| discriminate |].
  - intros [= <- <- <-]. rewrite (writeFileSync_same _ _ _ Hf). simpl.
    rewrite Hc, Hf. auto.
  - destruct (alreadyLocated st) eqn:Hl.
    + intros [= <- <- <-]. rewrite Hc, Hl, Hf. auto.
    + unfold runWalkers, locateProjects_settle. munfold.
      rewrite emitAll_run. simpl.
      rewrite setAlreadyLocated_true by exact Hc. simpl.
      set (roots := existingRoots (b :: bases) w).
      set (found := discoveries
                      (scanEvents (set_dirList [] st)
                         (withWalkers roots w) roots)).
      change (getCacheFile (withWalkers roots w)) with (getCacheFile w).
      intros [= <- <- <-]. simpl. rewrite Hc.
      split; [reflexivity|]. split; [reflexivity|].
      pose proof (getCacheFile_write (JSON_stringify found)
                    (withWalkers roots w)) as Hcf.
      change (getCacheFile (withWalkers roots w)) with (getCacheFile w)
        in Hcf.
      simpl in Hcf. rewrite Hcf. now rewrite lookup_insert_eq.
Qed.

(** X13: what has been located can be looked up.  After a call of
    [locateProjects] that resolved with caching enabled and base folders
    configured, the locator is located and holds the list returned.  For
    the path of every entry of that list [existsWithRootPath] returns the
    project of an entry of the list with that path up to case: the
    [fullPath] of that entry as [rootPath], its [name], an empty group and
    no paths.  Locator and disk are left as they are. *)
Theorem X13_located_projects_are_found st w b bases l st1 w1 :
  useCachedProjects st = true ->
  baseFolders st = Some (b :: bases) ->
  locateProjects st w = Ok (Resolved l) st1 w1 ->
  dirList st1 = l
  /\ isAlreadyLocated st1 = true
  /\ forall e,
      In e l ->
      exists e',
        In e' l /\ samePath (fullPath e) e'
        /\ existsWithRootPath (fullPath e) st1 w1
           = Ok (Found {| rootPath := fullPath e'; projName := name e';
                          group := EmptyString; paths := [] |}) st1 w1.
Proof.
  intros Hc Hb Hrun.
  destruct (locateProjects_resolved_state _ _ _ _ _ _ _ Hc Hb Hrun)
    as (Hlist & Hloc & Hcoh).
  split; [exact Hlist|]. split; [exact Hloc|]. intros e He.
  assert (Hex : exists x, In x (dirList st1) /\ samePath (fullPath e) x).
  { exists e. rewrite Hlist. split; [exact He | now left]. }
  destruct (findElement_found _ _ Hex) as [e' (Hin & Hsame & Hfind)].
  exists e'. rewrite <- Hlist. split; [exact Hin|]. split; [exact Hsame|].
  rewrite existsWithRootPath_run.
  rewrite (initializeCfg_coherent getKind st1 w1 Hloc Hcoh), Hloc.
  now rewrite Hfind.
Qed.

(** The loop of [existsWithRootPath] stops at the first entry that
    matches and is never [null]. *)
Lemma findElement_spec p l :
  match findElement p (toLocaleLowerCase (compactHomePath p)) l with
  | Found pr =>
      exists before e after,
        l = before ++ e :: after /\ pr = toProject e /\ samePath p e
        /\ forall x, In x before -> ~ samePath p x
  | Undefined => forall e, In e l -> ~ samePath p e
  | Null => False
  end.
Proof.
  induction l as [|x l IH]; simpl; [tauto|].
  destruct (matchesRoot p (toLocaleLowerCase (compactHomePath p)) x) eqn:Hm.
  - exists [], x, l. apply matchesRoot_samePath in Hm.
    repeat split; [exact Hm | contradiction].
  - assert (Hx : ~ samePath p x)
      by (intros H; apply matchesRoot_samePath in H; congruence).
    destruct (findElement p (toLocaleLowerCase (compactHomePath p)) l)
      as [pr| |].
    + destruct IH as (before & e & after & -> & -> & Hsame & Hbefore).
      exists (x :: before), e, after. repeat split; [exact Hsame|].
      intros y [<- | Hy]; [exact Hx | exact (Hbefore y Hy)].
    + contradiction.
    + intros e [<- | He]; [exact Hx | exact (IH e He)].
Qed.

(** The loop passes the entries that do not match. *)
Lemma findElement_first p before e after :
  samePath p e ->
  (forall x, In x before -> ~ samePath p x) ->
  findElement p (toLocaleLowerCase (compactHomePath p))
    (before ++ e :: after)
  = Found (toProject e).
Proof.
  intros He. induction before as [|x before IH]; intros Hbefore; simpl.
  - apply matchesRoot_samePath in He. now rewrite He.
  - destruct (matchesRoot p (toLocaleLowerCase (compactHomePath p)) x)
      eqn:Hm.
    + apply matchesRoot_samePath in Hm. exfalso.
      apply (Hbefore x); [now left | exact Hm].
    + apply IH. intros y Hy. apply Hbefore. now right.
Qed.

(** X14: in a located locator [existsWithRootPath] answers with the first
    entry of the list whose path is the given one or its home-compacted
    form, up to case: the result is the project with the [fullPath] of
    that entry as [rootPath], its [name], an empty group and no paths.
    When no entry matches the result is [undefined], not the [null] of a
    locator that is not located.  One of the two cases always applies. *)
Theorem X14_existsWithRootPath_first_match p st w st1 w1 :
  initializeCfg getKind st w = Ok tt st1 w1 ->
  isAlreadyLocated st1 = true ->
  (forall before e after,
      dirList st1 = before ++ e :: after ->
      samePath p e ->
      (forall x, In x before -> ~ samePath p x) ->
      existsWithRootPath p st w
      = Ok (Found {| rootPath := fullPath e; projName := name e;
                     group := EmptyString; paths := [] |}) st1 w1)
  /\ ((forall e, In e (dirList st1) -> ~ samePath p e) ->
      existsWithRootPath p st w = Ok Undefined st1 w1)
  /\ ((exists before e after,
         dirList st1 = before ++ e :: after
         /\ samePath p e
         /\ forall x, In x before -> ~ samePath p x)
      \/ forall e, In e (dirList st1) -> ~ samePath p e).
Proof.
  intros Hinit Hloc. rewrite existsWithRootPath_run, Hinit, Hloc.
  split; [|split].
  - intros before e after Hl He Hbefore.
    now rewrite Hl, (findElement_first p before e after He Hbefore).
  - intros Hnone.
    pose proof (findElement_spec p (dirList st1)) as Hspec.
    destruct (findElement p (toLocaleLowerCase (compactHomePath p))
                (dirList st1)) as [pr| |]; [|contradiction|reflexivity].
    destruct Hspec as (before & e & after & Hl & _ & Hsame & _).
    exfalso. apply (Hnone e); [|exact Hsame]. rewrite Hl.
    apply in_or_app. right. now left.
  - pose proof (findElement_spec p (dirList st1)) as Hspec.
    destruct (findElement p (toLocaleLowerCase (compactHomePath p))
                (dirList st1)) as [pr| |]; [|contradiction|now right].
    destruct Hspec as (before & e & after & Hl & _ & Hsame & Hbefore).
    left. exists before, e, after. auto.
Qed.

(** X15: a lookup empties the list when caching is disabled.
    [existsWithRootPath] starts with [initializeCfg], which clears
    [dirList] in that case: the answer is [null] and the results of an
    earlier scan are gone from memory. *)
Theorem X15_lookup_without_cache_empties_list p st w :
  useCachedProjects st = false ->
  exists st1,
    existsWithRootPath p st w = Ok Null st1 w
    /\ dirList st1 = []
    /\ forall q, existsWithRootPath q st1 w = Ok Null st1 w.
Proof.
  intros Hc. exists (set_dirList [] st).
  assert (Hrun : forall q s,
             useCachedProjects s = false ->
             existsWithRootPath q s w = Ok Null (set_dirList [] s) w).
  { intros q s Hs. rewrite existsWithRootPath_run.
    rewrite (initializeCfg_disabled _ _ _ Hs).
    unfold isAlreadyLocated. simpl. now rewrite Hs. }
  split; [exact (Hrun p st Hc)|]. split; [reflexivity|].
  intros q. exact (Hrun q (set_dirList [] st) Hc).
Qed.

(** X21: a cache file that parses always wins.  With caching enabled and
    base folders configured, [locateProjects] resolves with the list on
    disk, whatever the list in memory and the located flag are, and
    starts no walker.  So [setAlreadyLocated(false)] alone does not bring
    a new scan: the file has to go as well. *)
Theorem X21_cache_on_disk_wins st w b bases d :
  useCachedProjects st = true ->
  baseFolders st = Some (b :: bases) ->
  files w !! getCacheFile w = Some (JsonText d) ->
  (exists st1,
      locateProjects st w = Ok (Resolved d) st1 w
      /\ dirList st1 = d /\ isAlreadyLocated st1 = true)
  /\ exists st0,
      setAlreadyLocated false st w = Ok tt st0 w
      /\ isAlreadyLocated st0 = false
      /\ exists st1,
          locateProjects st0 w = Ok (Resolved d) st1 w
          /\ isAlreadyLocated st1 = true.
Proof.
  intros Hc Hb Hf.
  assert (Hload : forall s,
             useCachedProjects s = true ->
             baseFolders s = Some (b :: bases) ->
             locateProjects s w
             = Ok (Resolved d) (set_alreadyLocated true (set_dirList d s)) w).
  { intros s Hcs Hbs. unfold locateProjects. unfold bind.
    rewrite locateProjects_start_cases, Hbs, Hcs, Hf.
    change (Z.of_nat (length (b :: bases)) =? 0) with false. cbv iota.
    now rewrite (writeFileSync_same _ _ _ Hf). }
  split.
  - eexists. split; [exact (Hload st Hc Hb)|].
    unfold isAlreadyLocated. simpl. now rewrite Hc.
  - exists (set_alreadyLocated false st).
    split; [exact (setAlreadyLocated_false st w Hc)|].
    unfold isAlreadyLocated. simpl. rewrite Hc. split; [reflexivity|].
    eexists. split; [exact (Hload (set_alreadyLocated false st) Hc Hb)|].
    simpl. now rewrite Hc.
Qed.

End MoreLocate.

Section ChannelPath.

Context {hooks : LocatorHooks} {putils : PathUtils} {host : Host}.

Lemma index_of_prefix s1 s2 :
  s1 <> EmptyString -> String.prefix s1 s2 = true ->
  String.index 0 s1 s2 = Some O.
Proof.
  intros Hne Hp. destruct s2 as [|c s2].
  - destruct s1; [contradiction | discriminate].
  - simpl. simpl in Hp. now rewrite Hp.
Qed.

(** X17: the channel directory is [Code - Insiders] only when the
    application name has [Insiders] at a position after the first
    character.  A name that begins with [Insiders] selects [Code], the
    test being [indexOf(...) > 0]. *)
Theorem X17_getChannelPath_insiders_position :
  (String.prefix "Insiders" appName = true -> getChannelPath = "Code")
  /\ (getChannelPath = "Code - Insiders" ->
      exists n,
        (0 < n)%nat /\ String.substring n 8 appName = "Insiders").
Proof.
  unfold getChannelPath, strIndexOf. split.
  - intros Hp.
    assert (Hne : "Insiders" <> EmptyString) by discriminate.
    now rewrite (index_of_prefix "Insiders" appName Hne Hp).
  - destruct (String.index 0 "Insiders" appName) as [n|] eqn:Hi;
      [|discriminate].
    destruct n as [|n]; [discriminate|]. intros _.
    exists (S n). split; [lia|].
    exact (String.index_correct1 _ _ _ _ Hi).
Qed.

End ChannelPath.

(** ** The further properties on the fixtures *)

Lemma X8_persisted_list_is_loaded_back_witness :
  let st := Fixture.locator ["/srv"] [] (-1) true false [Fixture.projA] in
  let fresh := Fixture.locator ["/srv"] [] (-1) true false [] in
  useCachedProjects st = true
  /\ useCachedProjects fresh = true
  /\ exists st1 w1,
      setAlreadyLocated true st Fixture.emptyDisk = Ok tt st1 w1
      /\ files w1 !! getCacheFile w1 = Some (JsonText [Fixture.projA])
      /\ exists st2,
          initializeCfg getKind fresh w1 = Ok tt st2 w1
          /\ dirList st2 = [Fixture.projA]
          /\ isAlreadyLocated st2 = true.
Proof.
  intros st fresh.
  assert (Hc : useCachedProjects st = true) by reflexivity.
  assert (Hf : useCachedProjects fresh = true) by reflexivity.
  split; [exact Hc|]. split; [exact Hf|].
  destruct (X8_persisted_list_is_loaded_back st Fixture.emptyDisk Hc)
    as (st1 & w1 & Hset & Hlook & Hload).
  exists st1, w1. split; [exact Hset|]. split; [exact Hlook|].
  exact (Hload getKind fresh Hf).
Defined.

Lemma X9_initializeCfg_idempotent_witness :
  let fresh := Fixture.locator ["/srv"] [] (-1) true false [] in
  let w := Fixture.cachedDisk (JsonText [Fixture.projA]) in
  let st1 := stateOf (initializeCfg getKind fresh w) in
  let w1 := worldOf (initializeCfg getKind fresh w) in
  initializeCfg getKind fresh w = Ok tt st1 w1
  /\ dirList st1 = [Fixture.projA]
  /\ forall kind', initializeCfg kind' st1 w1 = Ok tt st1 w1.
Proof.
  intros fresh w st1 w1.
  assert (Hinit : initializeCfg getKind fresh w = Ok tt st1 w1)
    by (vm_compute; reflexivity).
  split; [exact Hinit|]. split; [vm_compute; reflexivity|].
  exact (X9_initializeCfg_idempotent getKind fresh w st1 w1 Hinit).
Defined.

Lemma X11_no_base_folder_exists_witness :
  let st := Fixture.locator ["/nowhere"] [] (-1) true false [] in
  let w := Fixture.emptyDisk in
  baseFolders st = Some ["/nowhere"]
  /\ existingRoots ["/nowhere"] w = []
  /\ isAlreadyLocated st = false
  /\ files w !! getCacheFile w = None
  /\ exists st1 w1,
      locateProjects st w = Ok (Resolved []) st1 w1
      /\ walkers w1 = walkers w
      /\ files w1 !! getCacheFile w1 = Some (JsonText [])
      /\ let appeared :=
           {| files := files w1;
              nodes := fun _ => Some Fixture.srvTree;
              walkers := walkers w1 |} in
         exists w3,
           locateProjects st1 appeared = Ok (Resolved []) st1 w3
           /\ walkers w3 = walkers appeared.
Proof.
  intros st w.
  assert (Hb : baseFolders st = Some ["/nowhere"]) by reflexivity.
  assert (Hroots : existingRoots ["/nowhere"] w = []) by reflexivity.
  assert (Hloc : isAlreadyLocated st = false) by reflexivity.
  assert (Hnone : files w !! getCacheFile w = None)
    by (vm_compute; reflexivity).
  split; [exact Hb|]. split; [exact Hroots|]. split; [exact Hloc|].
  split; [exact Hnone|].
  destruct (X11_no_base_folder_exists st w "/nowhere" [] Hb Hroots Hloc
              (fun _ => Hnone))
    as (st1 & w1 & Hrun & Hwalk & Hcache).
  destruct (Hcache eq_refl) as [Hlook Hlater].
  exists st1, w1. split; [exact Hrun|]. split; [exact Hwalk|].
  split; [exact Hlook|]. intros appeared.
  exact (Hlater appeared eq_refl).
Defined.

Lemma X12_without_cache_every_call_walks_witness :
  let st := Fixture.locator ["/srv"] ["node_modules"] (-1) false false [] in
  let w := Fixture.emptyDisk in
  let roots := existingRoots ["/srv"] w in
  useCachedProjects st = false
  /\ baseFolders st = Some ["/srv"]
  /\ roots = ["/srv"]
  /\ exists l1 st1 w1 l2 st2 w2,
      locateProjects st w = Ok (Resolved l1) st1 w1
      /\ walkers w1 = walkers w ++ roots
      /\ alreadyLocated st1 = alreadyLocated st
      /\ locateProjects st1 w1 = Ok (Resolved l2) st2 w2
      /\ walkers w2 = walkers w1 ++ roots
      /\ alreadyLocated st2 = alreadyLocated st
      /\ Permutation l1 l2.
Proof.
  intros st w roots.
  assert (Hc : useCachedProjects st = false) by reflexivity.
  assert (Hb : baseFolders st = Some ["/srv"]) by reflexivity.
  split; [exact Hc|]. split; [exact Hb|]. split; [reflexivity|].
  exact (X12_without_cache_every_call_walks st w "/srv" [] Hc Hb).
Defined.

Lemma X13_located_projects_are_found_witness :
  let st := Fixture.locator ["/home/u/work"] ["node_modules"] 2 true false
              [] in
  let w := Fixture.emptyDisk in
  let st1 := stateOf (locateProjects st w) in
  let w1 := worldOf (locateProjects st w) in
  useCachedProjects st = true
  /\ baseFolders st = Some ["/home/u/work"]
  /\ locateProjects st w = Ok (Resolved [Fixture.projA]) st1 w1
  /\ exists e',
      In e' [Fixture.projA] /\ samePath (fullPath Fixture.projA) e'
      /\ existsWithRootPath (fullPath Fixture.projA) st1 w1
         = Ok (Found {| rootPath := fullPath e'; projName := name e';
                        group := EmptyString; paths := [] |}) st1 w1.
Proof.
  intros st w st1 w1.
  assert (Hc : useCachedProjects st = true) by reflexivity.
  assert (Hb : baseFolders st = Some ["/home/u/work"]) by reflexivity.
  assert (Hrun : locateProjects st w = Ok (Resolved [Fixture.projA]) st1 w1)
    by (vm_compute; reflexivity).
  split; [exact Hc|]. split; [exact Hb|]. split; [exact Hrun|].
  destruct (X13_located_projects_are_found st w _ _ _ st1 w1 Hc Hb Hrun)
    as (_ & _ & Hfind).
  exact (Hfind Fixture.projA (or_introl eq_refl)).
Defined.

Lemma X14_existsWithRootPath_first_match_witness :
  let upper := {| fullPath := "/home/u/work/A"; name := "first" |} in
  let fresh := Fixture.locator ["/home/u/work"] [] (-1) true false [] in
  let w := Fixture.cachedDisk
             (JsonText [Fixture.staleProj; upper; Fixture.projA]) in
  let st1 := stateOf (initializeCfg getKind fresh w) in
  let w1 := worldOf (initializeCfg getKind fresh w) in
  initializeCfg getKind fresh w = Ok tt st1 w1
  /\ isAlreadyLocated st1 = true
  /\ dirList st1 = [Fixture.staleProj] ++ upper :: [Fixture.projA]
  /\ samePath "/home/u/work/a" upper
  /\ existsWithRootPath "/home/u/work/a" fresh w
     = Ok (Found {| rootPath := "/home/u/work/A"; projName := "first";
                    group := EmptyString; paths := [] |}) st1 w1
  /\ (forall e, In e (dirList st1) -> ~ samePath "/home/u/elsewhere" e)
  /\ existsWithRootPath "/home/u/elsewhere" fresh w = Ok Undefined st1 w1.
Proof.
  intros upper fresh w st1 w1.
  assert (Hinit : initializeCfg getKind fresh w = Ok tt st1 w1)
    by (vm_compute; reflexivity).
  assert (Hloc : isAlreadyLocated st1 = true) by (vm_compute; reflexivity).
  assert (Hl : dirList st1 = [Fixture.staleProj] ++ upper :: [Fixture.projA])
    by (vm_compute; reflexivity).
  assert (Hsame : samePath "/home/u/work/a" upper)
    by (left; vm_compute; reflexivity).
  assert (Hbefore : forall x,
             In x [Fixture.staleProj] -> ~ samePath "/home/u/work/a" x).
  { intros x [<- | []] [H | H]; vm_compute in H; discriminate. }
  assert (Hnone : forall e,
             In e (dirList st1) -> ~ samePath "/home/u/elsewhere" e).
  { rewrite Hl. intros e [<- | [<- | [<- | []]]] [H | H];
      vm_compute in H; discriminate. }
  split; [exact Hinit|]. split; [exact Hloc|]. split; [exact Hl|].
  split; [exact Hsame|].
  split.
  - exact (proj1 (X14_existsWithRootPath_first_match "/home/u/work/a"
                    fresh w st1 w1 Hinit Hloc)
             [Fixture.staleProj] upper [Fixture.projA] Hl Hsame Hbefore).
  - split; [exact Hnone|].
    exact (proj1 (proj2 (X14_existsWithRootPath_first_match
                           "/home/u/elsewhere" fresh w st1 w1 Hinit Hloc))
             Hnone).
Defined.

Lemma X15_lookup_without_cache_empties_list_witness :
  let st := Fixture.locator ["/home/u/work"] [] (-1) false false
              [Fixture.projA] in
  useCachedProjects st = false
  /\ dirList st = [Fixture.projA]
  /\ exists st1,
      existsWithRootPath "/home/u/work/a" st Fixture.emptyDisk
      = Ok Null st1 Fixture.emptyDisk
      /\ dirList st1 = []
      /\ forall q, existsWithRootPath q st1 Fixture.emptyDisk
                   = Ok Null st1 Fixture.emptyDisk.
Proof.
  intros st.
  assert (Hc : useCachedProjects st = false) by reflexivity.
  split; [exact Hc|]. split; [reflexivity|].
  exact (X15_lookup_without_cache_empties_list "/home/u/work/a" st
           Fixture.emptyDisk Hc).
Defined.

Lemma X17_getChannelPath_insiders_position_witness :
  let atStart :=
    {| env_APPDATA := None; env_HOME := Some "/home/u";
       platform := "linux"; appName := "Insiders Edition";
       toLocaleLowerCase := Fixture.lower |} in
  let later :=
    {| env_APPDATA := None; env_HOME := Some "/home/u";
       platform := "linux"; appName := "Visual Studio Code - Insiders";
       toLocaleLowerCase := Fixture.lower |} in
  String.prefix "Insiders" (@appName atStart) = true
  /\ @getChannelPath atStart = "Code"
  /\ @getChannelPath later = "Code - Insiders"
  /\ exists n,
      (0 < n)%nat
      /\ String.substring n 8 (@appName later) = "Insiders".
Proof.
  intros atStart later.
  assert (Hp : String.prefix "Insiders" (@appName atStart) = true)
    by reflexivity.
  assert (Hl : @getChannelPath later = "Code - Insiders") by reflexivity.
  split; [exact Hp|].
  split; [exact (proj1 (@X17_getChannelPath_insiders_position atStart) Hp)|].
  split; [exact Hl|].
  exact (proj2 (@X17_getChannelPath_insiders_position later) Hl).
Defined.

Lemma X19_trailing_separator_widens_depth_witness :
  let st := Fixture.locator ["/home/u/work/"] ["node_modules"] 2 true false
              [] in
  let deep := getPathDepth "/home/u/work/a/x/y" in
  0 < maxDepth st
  /\ isMaxDeptReached st deep (getPathDepth "/home/u/work") = true
  /\ isMaxDeptReached st deep (getPathDepth ("/home/u/work" +:+ "/"))
     = isMaxDeptReached (set_maxDepth (maxDepth st + 1) st) deep
         (getPathDepth "/home/u/work")
  /\ isMaxDeptReached st deep (getPathDepth "/home/u/work/") = false.
Proof.
  intros st deep.
  assert (Hpos : 0 < maxDepth st) by reflexivity.
  split; [exact Hpos|]. split; [reflexivity|].
  split; [|reflexivity].
  exact (X19_trailing_separator_widens_depth st "/home/u/work" deep Hpos).
Defined.

(** The scenario of the specification with the base folder written
    [/home/u/work/]: [a/x/y], three levels down, is listed. *)
Example trailing_separator_scans_deeper :
  let slashed :=
    {| files := ∅;
       nodes := fun p => if String.eqb p "/home/u/work/"
                         then Some Fixture.workTree else None;
       walkers := [] |} in
  let st := Fixture.locator ["/home/u/work/"] ["node_modules"] 2 false false
              [] in
  exists st1 w1,
    locateProjects st slashed
    = Ok (Resolved [Fixture.projA;
                    {| fullPath := "/home/u/work/a/x/y"; name := "y" |}])
         st1 w1.
Proof. eexists. eexists. vm_compute. reflexivity. Qed.

Lemma X21_cache_on_disk_wins_witness :
  let st := Fixture.locator ["/home/u/work"] [] (-1) true true [] in
  let w := Fixture.cachedDisk (JsonText [Fixture.staleProj]) in
  useCachedProjects st = true
  /\ baseFolders st = Some ["/home/u/work"]
  /\ files w !! getCacheFile w = Some (JsonText [Fixture.staleProj])
  /\ exists st0,
      setAlreadyLocated false st w = Ok tt st0 w
      /\ isAlreadyLocated st0 = false
      /\ exists st1,
          locateProjects st0 w = Ok (Resolved [Fixture.staleProj]) st1 w
          /\ isAlreadyLocated st1 = true.
Proof.
  intros st w.
  assert (Hc : useCachedProjects st = true) by reflexivity.
  assert (Hb : baseFolders st = Some ["/home/u/work"]) by reflexivity.
  assert (Hf : files w !! getCacheFile w = Some (JsonText [Fixture.staleProj]))
    by (vm_compute; reflexivity).
  split; [exact Hc|]. split; [exact Hb|]. split; [exact Hf|].
  exact (proj2 (X21_cache_on_disk_wins st w _ _ _ Hc Hb Hf)).
Defined.

(** A directory that cannot be read is not listed, and the scan still
    resolves. *)
Example unreadable_directory_skipped :
  let locked :=
    {| files := ∅;
       nodes := fun p =>
         if String.eqb p "/srv"
         then Some (Dir true [("proj", Dir false []);
                              ("node_modules", Fixture.repo [])])
         else None;
       walkers := [] |} in
  let st := Fixture.locator ["/srv"] [] (-1) false false [] in
  scanEvents st locked ["/srv"]
  = [EvDir "/srv"; EvError "/srv/proj"; EvDir "/srv/node_modules";
     EvDir "/srv/node_modules/.git"]
  /\ exists st1 w1,
      locateProjects st locked
      = Ok (Resolved [{| fullPath := "/srv/node_modules";
                         name := "node_modules" |}]) st1 w1.
Proof.
  split; [reflexivity|]. eexists. eexists. vm_compute. reflexivity.
Qed.
